(** * ReactOpenTelemetryHook: the active-span tracker

    A shallow embedding of the class [ReactOpenTelemetryHook]
    (instrumentation/ReactOpenTelemetry.ts) and of the part of
    [@opentelemetry/api] it talks to.  The class keeps one mutable field,
    [_activeSpan], and asks an external tracer to start and end spans.

    Layout of the file:
    - [Api]      : values the class exchanges with the tracing SDK;
    - [Js]       : completion records (normal / return / throw) and the
                   statement monad the method bodies are written in;
    - [UseCounter] : the state updaters of the [useCounter] hook
                   (hooks/useCounter.ts);
    - [ReactOpenTelemetryHook] : the methods of the class, transcribed
                   statement by statement, and the theorems about them;
    - [UseCounterFacts] : the theorems about the counter. *)

From Stdlib Require Import ZArith String List Floats.
From stdpp Require Import base option list strings gmap.

Local Open Scope string_scope.

(* ===================================================================== *)
(** ** Values exchanged with the tracing SDK *)
(* ===================================================================== *)

Module Api.

(** A [Span] object is known to the class only through its identity:
    the tracer hands out the n-th span it creates as handle [n]. *)
Definition Span := nat.

(** [string | number | boolean]; the class only passes numbers on, and a
    number is carried as the integer numeral it was written as. *)
Inductive Primitive : Type :=
| PStr (s : string)
| PNum (n : Z)
| PBool (b : bool).

(** [Record<string, string | number | boolean>] *)
Abbreviation Attributes := (gmap string Primitive).

(** The values an options object built by the class can hold under a key:
    a primitive, or a nested attribute object. *)
Inductive JSValue : Type :=
| JPrim (p : Primitive)
| JObj (o : Attributes).

(** The second argument of [tracer.startSpan]. *)
Abbreviation Options := (gmap string JSValue).

(** [{ ...attributes }] where [attributes] may be [undefined]:
    spreading [undefined] contributes no key. *)
Definition spread (attributes : option Attributes) : Attributes :=
  default ∅ attributes.

(** [{ ...attributes }] used as an options object: every caller key
    becomes a top-level key of the options. *)
Definition spreadOptions (attributes : option Attributes) : Options :=
  JPrim <$> spread attributes.

(** [{ attributes: a }] *)
Definition nestedOptions (a : Attributes) : Options :=
  {[ "attributes" := JObj a ]}.

(** What a tracer reads as the span's attributes: the object stored
    under the key ["attributes"] of the options (SpanOptions.attributes);
    anything else under that key is no attribute object. *)
Definition optionsAttributes (o : Options) : Attributes :=
  match o !! "attributes" with
  | Some (JObj a) => a
  | _ => ∅
  end.

(** An immutable [Context]: the span entry and the entries the class
    never looks at. *)
Record Context : Type := mkContext {
  ctx_span : option Span;
  ctx_rest : list (string * string)
}.

(** [trace.setSpan(ctx, span)] *)
Definition setSpan (c : Context) (s : Span) : Context :=
  {| ctx_span := Some s; ctx_rest := ctx_rest c |}.

(** [trace.getSpan(ctx)] *)
Definition getSpan (c : Context) : option Span := ctx_span c.

(** One successful [tracer.startSpan(name, options, context)] call. *)
Record SpanRecord : Type := mkSpanRecord {
  span_name : string;
  span_options : Options;
  span_context : option Context
}.

(** What [if (v)] makes of a value: the empty string, zero and [false]
    are falsy. *)
Definition truthy (v : JSValue) : bool :=
  match v with
  | JPrim (PStr EmptyString) => false
  | JPrim (PStr _) => true
  | JPrim (PNum n) => negb (n =? 0)%Z
  | JPrim (PBool b) => b
  | JObj _ => true
  end.

(** [options.root], as a tracer tests it: set and truthy. *)
Definition options_root (o : Options) : bool :=
  match o !! "root" with
  | Some v => truthy v
  | None => false
  end.

(** The parent a tracer gives the span.  The context argument defaults
    to the context active at the call ([active]); when [options.root] is
    truthy the span of that context is dropped and the span starts a new
    trace; otherwise the parent is the span the context carries. *)
Definition span_parent (active : Context) (r : SpanRecord) : option Span :=
  if options_root (span_options r) then None
  else getSpan (default active (span_context r)).

(** The attributes the span carries. *)
Definition span_attributes (r : SpanRecord) : Attributes :=
  optionsAttributes (span_options r).

(** Exceptions: the language's own [TypeError], or whatever the SDK
    raises. *)
Inductive Exn : Type :=
| TypeError (msg : string)
| SdkError (msg : string).

Inductive DiagLevel : Type := DiagDebug | DiagWarn.

(** One line written through [this._diag]; [diag_error] is the caught
    exception passed as extra argument, if any. *)
Record DiagEntry : Type := mkDiag {
  diag_level : DiagLevel;
  diag_message : string;
  diag_error : option Exn
}.

(** The tracer handle returned by the [tracer] getter. *)
Inductive Tracer : Type := TheTracer.

(** The behaviour of the SDK the class cannot see: whether a
    [startSpan] call raises instead of returning a span, given the spans
    started so far, and whether [span.end()] raises, given the [end]
    calls made so far. *)
Record Sdk : Type := mkSdk {
  startSpan_raises :
    list SpanRecord -> string -> Options -> option Context -> option Exn;
  end_raises : list Span -> Span -> option Exn
}.

(** An SDK that never raises (the OpenTelemetry API contract). *)
Definition lenientSdk : Sdk :=
  {| startSpan_raises := fun _ _ _ _ => None;
     end_raises := fun _ _ => None |}.

(** An SDK whose spans refuse a second [end()]. *)
Definition strictSdk : Sdk :=
  {| startSpan_raises := fun _ _ _ _ => None;
     end_raises := fun calls s =>
       if bool_decide (s ∈ calls)
       then Some (SdkError "span already ended") else None |}.

(** An SDK whose tracer is unavailable, or whose user-supplied sampler
    raises: every [startSpan] raises. *)
Definition brokenSdk : Sdk :=
  {| startSpan_raises := fun _ _ _ _ => Some (SdkError "tracer unavailable");
     end_raises := fun _ _ => None |}.

End Api.

Import Api.

(* ===================================================================== *)
(** ** The state the methods run against *)
(* ===================================================================== *)

(** The two private fields of the instance, and what the outside world
    records of its calls. *)
Record World : Type := mkWorld {
  _activeSpan : option Span;              (* private _activeSpan *)
  _httpInterceptorEnabled : bool;         (* private _httpInterceptorEnabled *)
  started : list SpanRecord;              (* spans the tracer created, by handle *)
  endCalls : list Span;                   (* every span.end() call, oldest first *)
  diagLog : list DiagEntry;               (* lines written to this._diag *)
  ambient : Context                       (* context.active() *)
}.

Definition set_activeSpan (v : option Span) (w : World) : World :=
  mkWorld v (_httpInterceptorEnabled w) (started w) (endCalls w)
          (diagLog w) (ambient w).

Definition set_httpInterceptorEnabled (b : bool) (w : World) : World :=
  mkWorld (_activeSpan w) b (started w) (endCalls w) (diagLog w) (ambient w).

Definition set_started (l : list SpanRecord) (w : World) : World :=
  mkWorld (_activeSpan w) (_httpInterceptorEnabled w) l (endCalls w)
          (diagLog w) (ambient w).

Definition set_endCalls (l : list Span) (w : World) : World :=
  mkWorld (_activeSpan w) (_httpInterceptorEnabled w) (started w) l
          (diagLog w) (ambient w).

Definition set_diagLog (l : list DiagEntry) (w : World) : World :=
  mkWorld (_activeSpan w) (_httpInterceptorEnabled w) (started w)
          (endCalls w) l (ambient w).

Definition set_ambient (c : Context) (w : World) : World :=
  mkWorld (_activeSpan w) (_httpInterceptorEnabled w) (started w)
          (endCalls w) (diagLog w) c.

(** The instance right after construction, in a given ambient context:
    [_activeSpan = undefined], [_httpInterceptorEnabled = false]. *)
Definition newInstance (c : Context) : World :=
  mkWorld None false [] [] [] c.

(* ===================================================================== *)
(** ** Statements and calls *)
(* ===================================================================== *)

Module Js.

(** How a statement completes: normally with a value, by [return r], or
    by [throw e]. *)
Inductive Completion (R A : Type) : Type :=
| Normal (a : A)
| Return (r : R)
| Throw (e : Exn).
Arguments Normal {R A} a.
Arguments Return {R A} r.
Arguments Throw {R A} e.

(** A statement (or expression) inside a function returning [R]. *)
Definition Stmt (R A : Type) : Type := World -> Completion R A * World.

(** How a call completes for its caller. *)
Inductive Outcome (R : Type) : Type :=
| Returned (r : R)
| Raised (e : Exn).
Arguments Returned {R} r.
Arguments Raised {R} e.

(** A method, seen from its caller. *)
Definition Call (R : Type) : Type := World -> Outcome R * World.

Definition pure {R A} (a : A) : Stmt R A := fun w => (Normal a, w).

Definition bind {R A B} (m : Stmt R A) (k : A -> Stmt R B) : Stmt R B :=
  fun w =>
    match m w with
    | (Normal a, w') => k a w'
    | (Return r, w') => (Return r, w')
    | (Throw e, w') => (Throw e, w')
    end.

(** [return r;] *)
Definition return_ {R} (r : R) : Stmt R unit := fun w => (Return r, w).

(** [throw e;] *)
Definition throw {R} (e : Exn) : Stmt R unit := fun w => (Throw e, w).

(** [try { body } catch (error) { handler }] *)
Definition tryCatch {R A} (body : Stmt R A) (handler : Exn -> Stmt R A)
  : Stmt R A :=
  fun w =>
    match body w with
    | (Throw e, w') => handler e w'
    | other => other
    end.

(** A function whose body is [body]; falling off the end returns
    [undefined], here [dflt]. *)
Definition function {R} (dflt : R) (body : Stmt R unit) : Call R :=
  fun w =>
    match body w with
    | (Normal _, w') => (Returned dflt, w')
    | (Return r, w') => (Returned r, w')
    | (Throw e, w') => (Raised e, w')
    end.

(** A call used as an expression inside another body. *)
Definition call {R A} (c : Call A) : Stmt R A :=
  fun w =>
    match c w with
    | (Returned a, w') => (Normal a, w')
    | (Raised e, w') => (Throw e, w')
    end.

(** Reading and writing the state. *)
Definition read {R A} (f : World -> A) : Stmt R A := fun w => (Normal (f w), w).
Definition write {R} (f : World -> World) : Stmt R unit :=
  fun w => (Normal tt, f w).

Declare Scope js_scope.
Delimit Scope js_scope with js.
Notation "x <- c ;; k" := (bind c (fun x => k))
  (at level 100, c at next level, right associativity) : js_scope.
Notation "c ;; k" := (bind c (fun _ => k))
  (at level 100, right associativity) : js_scope.

End Js.

Import Js.
Local Open Scope js_scope.

(* ===================================================================== *)
(** ** The counter hook (hooks/useCounter.ts) *)
(* ===================================================================== *)

Module UseCounter.

(** The Number operations the hook uses.  [IsLessThan x y] is the
    abstract relational comparison of the language: [Some true],
    [Some false], or [None] (undefined) when an operand is NaN. *)
Class JsNumber (num : Type) : Type := {
  num_zero : num;                               (* the literal 0 *)
  num_one : num;                                (* the literal 1 *)
  num_add : num -> num -> num;                  (* x + y *)
  num_sub : num -> num -> num;                  (* x - y *)
  IsLessThan : num -> num -> option bool
}.

Section Hook.

Context {num : Type} {N : JsNumber num}.

(** [x < y]: the comparison, with undefined read as false. *)
Definition js_lt (x y : num) : bool :=
  match IsLessThan x y with Some true => true | _ => false end.

(** [x > y]: the comparison of [y] with [x], undefined read as false. *)
Definition js_gt (x y : num) : bool :=
  match IsLessThan y x with Some true => true | _ => false end.

(** [x <= y]: false when [y < x] is true or undefined. *)
Definition js_le (x y : num) : bool :=
  match IsLessThan y x with Some false => true | _ => false end.

(** [x >= y]: false when [x < y] is true or undefined. *)
Definition js_ge (x y : num) : bool :=
  match IsLessThan x y with Some false => true | _ => false end.

(** [interface UseCounterOptions]: every field may be left out. *)
Record UseCounterOptions : Type := mkOptions {
  initialValue : option num;
  min : option num;
  max : option num;
  step : option num
}.

(** [const { initialValue = 0, min, max, step = 1 } = options] *)
Definition initialValue_of (options : UseCounterOptions) : num :=
  default num_zero (initialValue options).

Definition step_of (options : UseCounterOptions) : num :=
  default num_one (step options).

(** [useState(initialValue)]: the count at the first render. *)
Definition initialCount (options : UseCounterOptions) : num :=
  initialValue_of options.

(** The updater [setValue(value)] passes to [setCount]. *)
Definition setValue (options : UseCounterOptions) (value : num)
    (prevCount : num) : num :=
  let newValue := value in
  let newValue :=
    match min options with
    | Some lo => if js_lt newValue lo then lo else newValue
    | None => newValue
    end in
  let newValue :=
    match max options with
    | Some hi => if js_gt newValue hi then hi else newValue
    | None => newValue
    end in
  newValue.

(** The updater [increment()] passes to [setCount]. *)
Definition increment (options : UseCounterOptions) (prevCount : num) : num :=
  let newValue := num_add prevCount (step_of options) in
  match max options with
  | Some hi => if js_gt newValue hi then hi else newValue
  | None => newValue
  end.

(** The updater [decrement()] passes to [setCount]. *)
Definition decrement (options : UseCounterOptions) (prevCount : num) : num :=
  let newValue := num_sub prevCount (step_of options) in
  match min options with
  | Some lo => if js_lt newValue lo then lo else newValue
  | None => newValue
  end.

(** [reset()]: [setCount(initialValue)]. *)
Definition reset (options : UseCounterOptions) (prevCount : num) : num :=
  initialValue_of options.

(** [min !== undefined && count <= min] *)
Definition isAtMin (options : UseCounterOptions) (count : num) : bool :=
  match min options with
  | Some lo => js_le count lo
  | None => false
  end.

(** [max !== undefined && count >= max] *)
Definition isAtMax (options : UseCounterOptions) (count : num) : bool :=
  match max options with
  | Some hi => js_ge count hi
  | None => false
  end.

(** The calls a component can make on the returned object. *)
Inductive Action : Type :=
| Increment
| Decrement
| Reset
| SetValue (value : num).

(** The count after the state update an action queues. *)
Definition dispatch (options : UseCounterOptions) (a : Action) (count : num)
  : num :=
  match a with
  | Increment => increment options count
  | Decrement => decrement options count
  | Reset => reset options count
  | SetValue value => setValue options value count
  end.

(** The count after a sequence of actions, from the first render. *)
Definition counterAfter (options : UseCounterOptions) (actions : list Action)
  : num :=
  fold_left (fun count a => dispatch options a count) actions
            (initialCount options).

(** [count] is neither below [min] nor above [max], for the bounds that
    are set: [count < min] and [count > max] are both false. *)
Definition withinBounds (options : UseCounterOptions) (count : num) : Prop :=
  (forall lo, min options = Some lo -> js_lt count lo = false) /\
  (forall hi, max options = Some hi -> js_gt count hi = false).

(** The bounds do not cross: [max < min] is not true. *)
Definition boundsOrdered (options : UseCounterOptions) : Prop :=
  forall lo hi, min options = Some lo -> max options = Some hi ->
                js_lt hi lo = false.

(** No number is less than itself. *)
Definition lt_irreflexive : Prop :=
  forall x : num, IsLessThan x x <> Some true.

(** Adding a step that is not negative does not take a count below a
    bound it was not below; subtracting one does not take it above a bound
    it was not above. *)
Definition step_monotone : Prop :=
  forall count s bound : num,
    js_lt s num_zero = false ->
    (js_lt count bound = false -> js_lt (num_add count s) bound = false) /\
    (js_gt count bound = false -> js_gt (num_sub count s) bound = false).

End Hook.

(** Counts that are integers, with the integer operations: what the
    Number operations do on integers as long as magnitudes stay below
    2^53. *)
#[export] Instance integerNumber : JsNumber Z := {|
  num_zero := 0%Z;
  num_one := 1%Z;
  num_add := Z.add;
  num_sub := Z.sub;
  IsLessThan := fun x y => Some (x <? y)%Z
|}.

(** The Number type itself: IEEE 754 binary64 values with
    round-to-nearest arithmetic; a comparison with NaN is undefined. *)
#[export] Instance doubleNumber : JsNumber float := {|
  num_zero := 0%float;
  num_one := 1%float;
  num_add := PrimFloat.add;
  num_sub := PrimFloat.sub;
  IsLessThan := fun x y =>
    match PrimFloat.compare x y with
    | FLt => Some true
    | FEq | FGt => Some false
    | FNotComparable => None
    end
|}.

(** The options of the bounds test of the hook's test suite:
    [{ initialValue: 5, min: 0, max: 10, step: 3 }]. *)
Definition boundedOptions : UseCounterOptions (num := Z) :=
  mkOptions (Some 5%Z) (Some 0%Z) (Some 10%Z) (Some 3%Z).

(** Bounds given the wrong way round: [{ min: 10, max: 0 }]. *)
Definition crossedOptions : UseCounterOptions (num := Z) :=
  mkOptions None (Some 10%Z) (Some 0%Z) None.

(** A step that counts down: [{ initialValue: 1, min: 0, max: 10, step: -3 }]. *)
Definition negativeStepOptions : UseCounterOptions (num := Z) :=
  mkOptions (Some 1%Z) (Some 0%Z) (Some 10%Z) (Some (-3)%Z).

(** The same crossed bounds on Number values. *)
Definition crossedDoubleOptions : UseCounterOptions (num := float) :=
  mkOptions None (Some 10%float) (Some 0%float) None.

End UseCounter.

(* ===================================================================== *)
(** ** The class *)
(* ===================================================================== *)

Module ReactOpenTelemetryHook.

Section Methods.

(** The SDK registered behind [this.tracer] and behind the span
    objects it hands out. *)
Variable sdk : Sdk.

(** *** The collaborators *)

(** [this.tracer.startSpan(name, options, context)]: raises, or creates
    the next span and returns its handle. *)
Definition tracer_startSpan {R} (name : string) (options : Options)
    (context : option Context) : Stmt R Span :=
  fun w =>
    match startSpan_raises sdk (started w) name options context with
    | Some e => (Throw e, w)
    | None =>
        (Normal (length (started w)),
         set_started (started w ++ [mkSpanRecord name options context]) w)
    end.

(** [span.end()]: the call is made, then it raises or returns. *)
Definition span_end {R} (span : Span) : Stmt R unit :=
  fun w =>
    let w' := set_endCalls (endCalls w ++ [span]) w in
    match end_raises sdk (endCalls w) span with
    | Some e => (Throw e, w')
    | None => (Normal tt, w')
    end.

(** [context.active()] *)
Definition context_active {R} : Stmt R Context := read ambient.

(** [this._diag.debug(msg)] and [this._diag.warn(msg, error)] *)
Definition diag_debug {R} (msg : string) : Stmt R unit :=
  write (fun w => set_diagLog (diagLog w ++ [mkDiag DiagDebug msg None]) w).

Definition diag_warn {R} (msg : string) (error : option Exn) : Stmt R unit :=
  write (fun w => set_diagLog (diagLog w ++ [mkDiag DiagWarn msg error]) w).

(** [this.setActiveSpan(span)], as [startPageSpan] calls it.  The class
    body declares the methods [init], [enable], [disable],
    [_startParentSpan], [_startSpan], [_endSpan], [resetSpan],
    [getActiveSpan], [RunTrace], [startPageSpan], [getTracer],
    [disableHttpInterceptor] and [isHttpInterceptorEnabled]; neither it
    nor its base class [InstrumentationBase] has a member named
    [setActiveSpan].  The property read yields [undefined], and calling
    [undefined] raises a [TypeError]. *)
Definition setActiveSpan {R} (span : Span) : Stmt R unit :=
  throw (TypeError "this.setActiveSpan is not a function").

(** [parentSpan ? trace.setSpan(context.active(), parentSpan) : undefined] *)
Definition parentContext {R} (parentSpan : option Span)
  : Stmt R (option Context) :=
  match parentSpan with
  | Some p => c <- context_active ;; pure (Some (setSpan c p))
  | None => pure None
  end.

(** *** The methods *)

(** [init()]: empty body. *)
Definition init : Call unit := function tt (pure tt).

(** [enable()] *)
Definition enable : Call unit :=
  function tt (diag_debug "ReactOpenTelemetryHook enabled").

(** [disable()] *)
Definition disable : Call unit :=
  function tt (diag_debug "ReactOpenTelemetryHook disabled").

(** [private _startParentSpan(spanName, parentSpan?, attributes?)] *)
Definition _startParentSpan (spanName : string) (parentSpan : option Span)
    (attributes : option Attributes) : Call (option Span) :=
  function None (
    ctx <- parentContext parentSpan ;;
    span <- tracer_startSpan spanName (spreadOptions attributes) ctx ;;
    write (set_activeSpan (Some span)) ;;
    return_ (Some span)).

(** [private _startSpan(spanName, parentSpan?, attributes?)] *)
Definition _startSpan (spanName : string) (parentSpan : option Span)
    (attributes : option Attributes) : Call (option Span) :=
  function None (
    ctx <- parentContext parentSpan ;;
    span <- tracer_startSpan spanName (spreadOptions attributes) ctx ;;
    return_ (Some span)).

(** [private _endSpan(span, success?, errorMessage?)] *)
Definition _endSpan (span : Span) (success : option bool)
    (errorMessage : option string) : Call unit :=
  function tt (span_end span).

(** [public resetSpan(): void] *)
Definition resetSpan : Call unit :=
  function tt (
    active <- read _activeSpan ;;
    match active with
    | Some span =>
        tryCatch (span_end span)
                 (fun error =>
                    diag_warn "Error ending span during reset:" (Some error))
    | None => pure tt
    end ;;
    write (set_activeSpan None)).

(** [public getActiveSpan(): Span | undefined] *)
Definition getActiveSpan : Call (option Span) :=
  function None (
    active <- read _activeSpan ;;
    return_ active).

(** [this._activeSpan || trace.getSpan(context.active())] *)
Definition resolveParent {R} : Stmt R (option Span) :=
  active <- read _activeSpan ;;
  match active with
  | Some span => pure (Some span)
  | None => c <- context_active ;; pure (getSpan c)
  end.

(** [public RunTrace({action, attributes}): Span | undefined].  The two
    statements after [return span;] are kept where the source has
    them. *)
Definition RunTrace (action : string) (attributes : option Attributes)
  : Call (option Span) :=
  function None (
    parentSpan <- resolveParent ;;
    parentSpan <-
      match parentSpan with
      | None =>
          span <- call (_startParentSpan action parentSpan attributes) ;;
          write (set_activeSpan span) ;;
          pure span
      | Some _ => pure parentSpan
      end ;;
    span <- call (_startSpan action parentSpan attributes) ;;
    return_ span ;;
    diag_warn "No parent span available for RunTrace" None ;;
    return_ None).

(** The attribute object [startPageSpan] builds: the three page keys,
    then the caller's keys spread over them. *)
Definition pageAttributes (pageName : string)
    (attributes : option Attributes) : Attributes :=
  spread attributes ∪
  <["page.name" := PStr pageName]>
    (<["page.type" := PStr "navigation"]>
       (<["span.kind" := PStr "client"]> ∅)).

(** [public startPageSpan(pageName, attributes?): Span] *)
Definition startPageSpan (pageName : string)
    (attributes : option Attributes) : Call (option Span) :=
  function None (
    pageSpan <- tracer_startSpan ("page." ++ pageName)
                  (nestedOptions (pageAttributes pageName attributes))
                  None ;;
    setActiveSpan pageSpan ;;
    diag_debug ("Started new page span for: " ++ pageName) ;;
    return_ (Some pageSpan)).

(** [getTracer(): Tracer] *)
Definition getTracer : Call Tracer :=
  function TheTracer (return_ TheTracer).

(** [public disableHttpInterceptor(): void] *)
Definition disableHttpInterceptor : Call unit :=
  function tt (
    write (set_httpInterceptorEnabled false) ;;
    diag_debug "HTTP interceptor disabled").

(** [public isHttpInterceptorEnabled(): boolean] *)
Definition isHttpInterceptorEnabled : Call bool :=
  function false (
    b <- read _httpInterceptorEnabled ;;
    return_ b).

End Methods.

(* --------------------------------------------------------------------- *)
(** *** Running a method body *)
(* --------------------------------------------------------------------- *)

(** Unfolds the statement combinators and the collaborators, leaving the
    SDK's decisions and the maps untouched. *)
Ltac js_unfold :=
  cbv beta iota zeta delta
    [function call bind pure return_ throw tryCatch read write
     tracer_startSpan span_end context_active diag_debug diag_warn
     setActiveSpan parentContext resolveParent
     _startParentSpan _startSpan _endSpan resetSpan getActiveSpan RunTrace
     startPageSpan getTracer disableHttpInterceptor isHttpInterceptorEnabled
     init enable disable
     set_activeSpan set_httpInterceptorEnabled set_started set_endCalls
     set_diagLog set_ambient
     _activeSpan _httpInterceptorEnabled started endCalls diagLog ambient
     getSpan fst snd].

(** Closes the goals [slotLive] leaves once the state is spelled out. *)
Ltac live_solve :=
  repeat match goal with
         | |- _ /\ _ => split
         | |- forall _, _ => intro
         | H : Some _ = Some _ |- _ => injection H as H; subst
         | H : None = Some _ |- _ => discriminate H
         | H : _ ∈ (_ ++ _)%list |- _ => apply elem_of_app in H; destruct H
         | H : _ ∈ [_] |- _ => apply list_elem_of_singleton in H; subst
         | |- _ ∉ _ => intro
         end;
  rewrite ?length_app in *; cbn [length] in *.

(** Brings in what [slotLive] says of the handles at hand. *)
Ltac live_finish Hends Hslot :=
  repeat match goal with
         | H : _ ∈ _ |- _ => pose proof (Hends _ H); revert H
         end; intros;
  repeat match goal with
         | H : _ = Some _ |- _ => pose proof (Hslot _ H) as [? ?]; revert H
         end; intros;
  first [lia | contradiction | assumption | idtac].

(** The record of the span [RunTrace] asks for under parent [p]. *)
Definition childRecord (action : string) (attributes : option Attributes)
    (c : Context) (p : Span) : SpanRecord :=
  mkSpanRecord action (spreadOptions attributes) (Some (setSpan c p)).

(** The record of the root [RunTrace] synthesizes. *)
Definition rootRecord (action : string) (attributes : option Attributes)
  : SpanRecord :=
  mkSpanRecord action (spreadOptions attributes) None.

(** The record of the span [startPageSpan] asks for. *)
Definition pageRecord (pageName : string) (attributes : option Attributes)
  : SpanRecord :=
  mkSpanRecord ("page." ++ pageName)
               (nestedOptions (pageAttributes pageName attributes)) None.

(** The span [p] found by parent resolution, if any: the slot first, the
    ambient context only when the slot is empty. *)
Definition resolvedParent (w : World) : option Span :=
  match _activeSpan w with
  | Some s => Some s
  | None => getSpan (ambient w)
  end.

(* --------------------------------------------------------------------- *)
(** *** Sequences of calls *)
(* --------------------------------------------------------------------- *)

(** What application code can do to an instance: call a public method, or
    move to another ambient context between two calls. *)
Inductive Op : Type :=
| OpStartPageSpan (pageName : string) (attributes : option Attributes)
| OpRunTrace (action : string) (attributes : option Attributes)
| OpResetSpan
| OpGetActiveSpan
| OpGetTracer
| OpDisableHttpInterceptor
| OpIsHttpInterceptorEnabled
| OpInit
| OpEnable
| OpDisable
| OpEnterContext (c : Context).

(** The state a call leaves behind, whether it returned or raised. *)
Definition step (sdk : Sdk) (op : Op) (w : World) : World :=
  match op with
  | OpStartPageSpan pageName attributes =>
      (startPageSpan sdk pageName attributes w).2
  | OpRunTrace action attributes => (RunTrace sdk action attributes w).2
  | OpResetSpan => (resetSpan sdk w).2
  | OpGetActiveSpan => (getActiveSpan w).2
  | OpGetTracer => (getTracer w).2
  | OpDisableHttpInterceptor => (disableHttpInterceptor w).2
  | OpIsHttpInterceptorEnabled => (isHttpInterceptorEnabled w).2
  | OpInit => (init w).2
  | OpEnable => (enable w).2
  | OpDisable => (disable w).2
  | OpEnterContext c => set_ambient c w
  end.

Definition run (sdk : Sdk) (ops : list Op) (w : World) : World :=
  fold_left (fun w op => step sdk op w) ops w.

(** The handles the slot holds. *)
Definition slotHandles (w : World) : list Span := option_list (_activeSpan w).


(** A call that raised nothing. *)
Definition returns {R} (r : Outcome R * World) : Prop :=
  exists v, r.1 = Returned v.

(** Every handle that was ended was issued by the tracer, and the slot
    holds an issued handle that no [end()] call has named. *)
Definition slotLive (w : World) : Prop :=
  (forall s, s ∈ endCalls w -> s < length (started w)) /\
  (forall s, _activeSpan w = Some s ->
             s < length (started w) /\ s ∉ endCalls w).

(** Every public operation returns to its caller in state [w], whatever
    its arguments. *)
Definition absorbsAllFailures (sdk : Sdk) (w : World) : Prop :=
  (forall pageName attributes,
      returns (startPageSpan sdk pageName attributes w)) /\
  (forall action attributes, returns (RunTrace sdk action attributes w)) /\
  returns (resetSpan sdk w) /\
  returns (getActiveSpan w) /\
  returns (getTracer w).

(** Every handle the class has ended, and the handle in the slot, is a
    root that [RunTrace] synthesized. *)
Definition rootsOnly (w : World) : Prop :=
  forall s, s ∈ endCalls w \/ _activeSpan w = Some s ->
            exists action attributes,
              started w !! s = Some (rootRecord action attributes).

(** An SDK whose tracer starts a first span and raises on the second
    [startSpan] call. *)
Definition secondCallFails : Sdk :=
  {| startSpan_raises := fun spans _ _ _ =>
       if bool_decide (length spans = 1)
       then Some (SdkError "span limit reached") else None;
     end_raises := fun _ _ => None |}.

(** The exception the [startSpan] calls of [RunTrace] raise, if any:
    the one call under the parent found, or else the call for the root
    and, when that returns, the call for the requested span. *)
Definition RunTrace_failure (sdk : Sdk) (action : string)
    (attributes : option Attributes) (w : World) : option Exn :=
  match resolvedParent w with
  | Some p =>
      startSpan_raises sdk (started w) action (spreadOptions attributes)
                       (Some (setSpan (ambient w) p))
  | None =>
      match startSpan_raises sdk (started w) action
                             (spreadOptions attributes) None with
      | Some e => Some e
      | None =>
          startSpan_raises sdk
            (started w ++ [rootRecord action attributes])
            action (spreadOptions attributes)
            (Some (setSpan (ambient w) (length (started w))))
      end
  end.

(** *** States used in the examples *)

Definition emptyContext : Context := mkContext None [].

(** A fresh instance on which [RunTrace] has synthesized a root (handle 0)
    and a child (handle 1), after which the application made the child
    current in the ambient context. *)
Definition activeWorld : World :=
  run lenientSdk
      [OpRunTrace "page" None; OpEnterContext (mkContext (Some 1) [])]
      (newInstance emptyContext).

(** The same instance when an earlier [end()] already retired handle 0
    and the spans are strict about it. *)
Definition staleWorld : World := set_endCalls [0] activeWorld.

Definition routeAttributes : option Attributes :=
  Some {[ "route.path" := PStr "/dashboard" ]}.

(** A caller map with a key the tracer reads as an option:
    [{ root: true }]. *)
Definition rootAttributes : option Attributes :=
  Some {[ "root" := PBool true ]}.

Section Equations.

Variable sdk : Sdk.

(** [RunTrace] when a parent [p] is found: one [startSpan] call, under
    a context carrying [p]; the state changes only by the new span. *)
Lemma RunTrace_parent_found action attributes w p :
  resolvedParent w = Some p ->
  RunTrace sdk action attributes w =
  match startSpan_raises sdk (started w) action (spreadOptions attributes)
                         (Some (setSpan (ambient w) p)) with
  | Some e => (Raised e, w)
  | None =>
      (Returned (Some (length (started w))),
       set_started
         (started w ++ [childRecord action attributes (ambient w) p]) w)
  end.
Proof.
  destruct w as [slot http sp ends lg amb].
  unfold resolvedParent, childRecord. js_unfold.
  destruct slot as [s|]; intros Hp.
  - injection Hp as ->.
    destruct (startSpan_raises sdk sp action _ _); reflexivity.
  - destruct amb as [aspan rest]; cbv [ctx_span] in Hp |- *. subst aspan.
    cbv beta iota.
    destruct (startSpan_raises sdk sp action _ _); reflexivity.
Qed.

(** [RunTrace] when no parent is found: the root is started without a
    context and stored in the slot, then the requested span is started
    under a context carrying the root. *)
Lemma RunTrace_no_parent action attributes w :
  resolvedParent w = None ->
  RunTrace sdk action attributes w =
  match startSpan_raises sdk (started w) action (spreadOptions attributes)
                         None with
  | Some e => (Raised e, w)
  | None =>
      let root := length (started w) in
      let w1 :=
        set_activeSpan (Some root)
          (set_started (started w ++ [rootRecord action attributes]) w) in
      match startSpan_raises sdk (started w1) action
              (spreadOptions attributes)
              (Some (setSpan (ambient w) root)) with
      | Some e => (Raised e, w1)
      | None =>
          (Returned (Some (length (started w1))),
           set_started
             (started w1 ++ [childRecord action attributes (ambient w) root])
             w1)
      end
  end.
Proof.
  destruct w as [slot http sp ends lg amb].
  unfold resolvedParent, childRecord, rootRecord. js_unfold.
  destruct slot as [s|]; intros Hp; [discriminate|].
  destruct amb as [aspan rest]; cbv [ctx_span] in Hp |- *. subst aspan.
  cbv beta iota.
  destruct (startSpan_raises sdk sp action _ None); [reflexivity|].
  cbv beta iota.
  destruct (startSpan_raises sdk (sp ++ _) action _ _); reflexivity.
Qed.

(** [resetSpan]: one [end()] call on the held span, a warning if it
    raised, and an empty slot. *)
Lemma resetSpan_eq w :
  resetSpan sdk w =
  (Returned tt,
   match _activeSpan w with
   | None => set_activeSpan None w
   | Some s =>
       let w1 := set_endCalls (endCalls w ++ [s]) w in
       set_activeSpan None
         match end_raises sdk (endCalls w) s with
         | Some e =>
             set_diagLog
               (diagLog w ++
                [mkDiag DiagWarn "Error ending span during reset:" (Some e)])
               w1
         | None => w1
         end
   end).
Proof.
  destruct w as [slot http sp ends lg amb]. js_unfold.
  destruct slot as [s|]; [|reflexivity].
  destruct (end_raises sdk ends s); reflexivity.
Qed.

(** [startPageSpan]: the span is started, then the call of the missing
    member raises; the statements after it do not run. *)
Lemma startPageSpan_eq pageName attributes w :
  startPageSpan sdk pageName attributes w =
  match startSpan_raises sdk (started w) ("page." ++ pageName)
          (nestedOptions (pageAttributes pageName attributes)) None with
  | Some e => (Raised e, w)
  | None =>
      (Raised (TypeError "this.setActiveSpan is not a function"),
       set_started (started w ++ [pageRecord pageName attributes]) w)
  end.
Proof.
  destruct w as [slot http sp ends lg amb]. unfold pageRecord. js_unfold.
  destruct (startSpan_raises sdk sp _ _ None); reflexivity.
Qed.

Lemma getActiveSpan_eq w :
  getActiveSpan w = (Returned (_activeSpan w), w).
Proof. reflexivity. Qed.

Lemma getTracer_eq w : getTracer w = (Returned TheTracer, w).
Proof. reflexivity. Qed.

End Equations.

(* --------------------------------------------------------------------- *)
(** *** Page spans *)
(* --------------------------------------------------------------------- *)

(** C1.  [startPageSpan] is documented to start a page span and set it as
    active.  As written it never gets there: for every SDK, page name,
    attribute map and state the call raises instead of returning, and the
    slot still holds what it held before (no [end()] call is made either).
    When the SDK let the span start, that span is left started and
    unreachable. *)
Theorem C1_startPageSpan_raises_before_install
    (sdk : Sdk) (pageName : string) (attributes : option Attributes)
    (w : World) :
  let r := startPageSpan sdk pageName attributes w in
  (exists e, r.1 = Raised e) /\
  _activeSpan r.2 = _activeSpan w /\
  endCalls r.2 = endCalls w /\
  (getActiveSpan r.2).1 = Returned (_activeSpan w) /\
  (startSpan_raises sdk (started w) ("page." ++ pageName)
     (nestedOptions (pageAttributes pageName attributes)) None = None ->
   r.1 = Raised (TypeError "this.setActiveSpan is not a function") /\
   started r.2 = (started w ++ [pageRecord pageName attributes])%list).
Proof.
  cbv zeta. rewrite startPageSpan_eq.
  destruct (startSpan_raises sdk (started w) _ _ None) as [e|] eqn:Hs;
    destruct w as [slot http sp ends lg amb]; cbn.
  - repeat split; eauto; discriminate.
  - repeat split; eauto.
Qed.

(** The scenario of the specification, on a fresh instance and an SDK
    that never raises: [startPageSpan("home", {})] raises, and
    [getActiveSpan()] afterwards returns [undefined], not [page.home]. *)
Lemma C1_witness :
  let r := startPageSpan lenientSdk "home" (Some ∅) (newInstance emptyContext) in
  r.1 = Raised (TypeError "this.setActiveSpan is not a function") /\
  (getActiveSpan r.2).1 = Returned None /\
  span_name <$> started r.2 = ["page.home"].
Proof.
  cbv zeta.
  destruct (C1_startPageSpan_raises_before_install lenientSdk "home" (Some ∅)
              (newInstance emptyContext))
    as (_ & _ & _ & Hget & Hstarted).
  destruct (Hstarted eq_refl) as [Hraised Hst].
  split; [exact Hraised|]. split; [exact Hget|].
  rewrite Hst. reflexivity.
Defined.

(* --------------------------------------------------------------------- *)
(** *** Reset *)
(* --------------------------------------------------------------------- *)

(** After [resetSpan] the slot is empty. *)
Lemma resetSpan_clears_slot (sdk : Sdk) (w : World) :
  _activeSpan (resetSpan sdk w).2 = None.
Proof.
  rewrite resetSpan_eq. destruct w as [slot http sp ends lg amb].
  destruct slot as [s|]; [destruct (end_raises sdk ends s)|]; reflexivity.
Qed.

(** C5.  [resetSpan] always returns to its caller and leaves the slot
    empty.  It calls [end()] on the held span exactly when the slot is
    non-empty; if that call raises, the exception is caught and one
    warning carrying it is logged; nothing else changes. *)
Theorem C5_resetSpan_always_succeeds (sdk : Sdk) (w : World) :
  let r := resetSpan sdk w in
  r.1 = Returned tt /\
  _activeSpan r.2 = None /\
  endCalls r.2 = (endCalls w ++ slotHandles w)%list /\
  diagLog r.2 =
    (diagLog w ++
     match _activeSpan w with
     | Some s =>
         match end_raises sdk (endCalls w) s with
         | Some e =>
             [mkDiag DiagWarn "Error ending span during reset:" (Some e)]
         | None => []
         end
     | None => []
     end)%list /\
  started r.2 = started w /\
  ambient r.2 = ambient w /\
  _httpInterceptorEnabled r.2 = _httpInterceptorEnabled w.
Proof.
  cbv zeta. rewrite resetSpan_eq. unfold slotHandles.
  destruct w as [slot http sp ends lg amb]; cbn.
  destruct slot as [s|]; cbn.
  - destruct (end_raises sdk ends s); cbn;
      rewrite ?app_nil_r; repeat split; reflexivity.
  - rewrite !app_nil_r. repeat split; reflexivity.
Qed.

(** The two cases the specification singles out, on concrete states: an
    empty slot, and a held handle whose [end()] raises. *)
Example resetSpan_on_empty_slot :
  resetSpan strictSdk (newInstance emptyContext) =
  (Returned tt, newInstance emptyContext).
Proof. reflexivity. Qed.

Example resetSpan_when_end_raises :
  let r := resetSpan strictSdk staleWorld in
  end_raises strictSdk (endCalls staleWorld) 0 =
    Some (SdkError "span already ended") /\
  r.1 = Returned tt /\
  _activeSpan r.2 = None /\
  diagLog r.2 =
    [mkDiag DiagWarn "Error ending span during reset:"
            (Some (SdkError "span already ended"))].
Proof. cbv zeta. rewrite resetSpan_eq. repeat split. Qed.

(** C7.  A second [resetSpan] right after a first one returns normally
    and changes nothing at all: no [end()] call, no log line, the slot
    stays empty.  Two resets therefore leave the state one reset leaves. *)
Theorem C7_resetSpan_idempotent (sdk : Sdk) (w : World) :
  let once := resetSpan sdk w in
  let twice := resetSpan sdk once.2 in
  twice = (Returned tt, once.2) /\
  _activeSpan once.2 = None /\
  _activeSpan twice.2 = None /\
  endCalls twice.2 = endCalls once.2.
Proof.
  cbv zeta. rewrite !resetSpan_eq.
  destruct w as [slot http sp ends lg amb]; cbn.
  destruct slot as [s|]; cbn.
  - destruct (end_raises sdk ends s); cbn; repeat split; reflexivity.
  - repeat split; reflexivity.
Qed.

(* --------------------------------------------------------------------- *)
(** *** RunTrace *)
(* --------------------------------------------------------------------- *)

(** The exact outcome of a [RunTrace] call: it raises the exception its
    [startSpan] calls raise, if any, and otherwise returns the handle of
    the span it started last; in both cases nothing is written to the log
    and no [end()] call is made. *)
Lemma RunTrace_result (sdk : Sdk) action attributes w :
  let r := RunTrace sdk action attributes w in
  diagLog r.2 = diagLog w /\
  endCalls r.2 = endCalls w /\
  r.1 = match RunTrace_failure sdk action attributes w with
        | Some e => Raised e
        | None =>
            Returned (Some (match resolvedParent w with
                            | Some _ => length (started w)
                            | None => S (length (started w))
                            end))
        end.
Proof.
  cbv zeta. unfold RunTrace_failure.
  destruct (resolvedParent w) as [p|] eqn:Hp.
  - rewrite (RunTrace_parent_found sdk action attributes w p Hp).
    destruct (startSpan_raises sdk (started w) action _ _); destruct w;
      repeat split; reflexivity.
  - rewrite (RunTrace_no_parent sdk action attributes w Hp).
    destruct (startSpan_raises sdk (started w) action _ None);
      [destruct w; repeat split; reflexivity|].
    cbv zeta. destruct w as [slot http sp ends lg amb]; cbn.
    destruct (startSpan_raises sdk (sp ++ _) action _ _); cbn;
      repeat split; try reflexivity.
    rewrite length_app. cbn. f_equal. f_equal. lia.
Qed.

(** C2, counterexample.  With a tracer whose [startSpan] raises,
    [RunTrace({action: "checkout"})] on a fresh instance raises that
    exception into its caller: nothing between the [startSpan] call and
    the caller catches it. *)
Lemma C2_counterexample :
  (RunTrace brokenSdk "checkout" None (newInstance emptyContext)).1 =
    Raised (SdkError "tracer unavailable") /\
  ~ absorbsAllFailures brokenSdk (newInstance emptyContext).
Proof.
  split; [reflexivity|].
  intros (_ & Hrun & _). destruct (Hrun "checkout" None) as [v Hv].
  discriminate Hv.
Qed.

(** C2, amended.  [resetSpan], [getActiveSpan] and [getTracer] return to
    their caller in every state and for every SDK: [resetSpan] catches
    what [end()] raises and logs it as one warning, the two getters leave
    the state as it is.  [RunTrace] has no handler of its own: when one of
    the [tracer.startSpan] calls it makes raises, that exception reaches
    the caller and nothing is logged; when none does, it returns a span
    handle. *)
Theorem C2_only_startSpan_failures_escape (sdk : Sdk) (w : World) :
  (let r := resetSpan sdk w in
   r.1 = Returned tt /\
   diagLog r.2 =
     (diagLog w ++
      match _activeSpan w with
      | Some s =>
          match end_raises sdk (endCalls w) s with
          | Some e =>
              [mkDiag DiagWarn "Error ending span during reset:" (Some e)]
          | None => []
          end
      | None => []
      end)%list) /\
  getActiveSpan w = (Returned (_activeSpan w), w) /\
  getTracer w = (Returned TheTracer, w) /\
  (forall action attributes,
      let r := RunTrace sdk action attributes w in
      diagLog r.2 = diagLog w /\
      match RunTrace_failure sdk action attributes w with
      | Some e => r.1 = Raised e
      | None => exists h, r.1 = Returned (Some h)
      end).
Proof.
  split; [|split; [reflexivity|split; [reflexivity|]]].
  - cbv zeta. rewrite resetSpan_eq.
    destruct w as [slot http sp ends lg amb]; cbn.
    destruct slot as [s|]; [destruct (end_raises sdk ends s)|]; cbn;
      rewrite ?app_nil_r; split; reflexivity.
  - intros action attributes. cbv zeta.
    destruct (RunTrace_result sdk action attributes w) as (Hlog & _ & Hr).
    split; [exact Hlog|].
    destruct (RunTrace_failure sdk action attributes w); [exact Hr|].
    eexists. exact Hr.
Qed.




(** The spans a [RunTrace] call adds when a parent [p] is found: none
    or one, asked for under a context that carries [p]. *)
Lemma RunTrace_parent_found_started (sdk : Sdk) action attributes w p :
  resolvedParent w = Some p ->
  let r := RunTrace sdk action attributes w in
  _activeSpan r.2 = _activeSpan w /\
  exists news,
    started r.2 = (started w ++ news)%list /\
    Forall (fun rec => rec = childRecord action attributes (ambient w) p) news.
Proof.
  intros Hp. cbv zeta.
  rewrite (RunTrace_parent_found sdk action attributes w p Hp).
  destruct (startSpan_raises sdk (started w) action _ _).
  - split; [reflexivity|]. exists []. rewrite app_nil_r. split; constructor.
  - destruct w as [slot http sp ends lg amb]; cbn.
    split; [reflexivity|]. eexists. split; [reflexivity|].
    repeat constructor.
Qed.




(** C8.  A [RunTrace] call that finds a parent, in the slot or in the
    ambient context, leaves the slot as it was.  The only change
    [RunTrace] ever makes to the slot is on the path where no parent is
    found: the slot was empty and now holds the root just started. *)
Theorem C8_RunTrace_frames_slot
    (sdk : Sdk) (action : string) (attributes : option Attributes)
    (w : World) :
  let r := RunTrace sdk action attributes w in
  (forall p, resolvedParent w = Some p -> _activeSpan r.2 = _activeSpan w) /\
  (_activeSpan r.2 <> _activeSpan w ->
   resolvedParent w = None /\ _activeSpan w = None /\
   _activeSpan r.2 = Some (length (started w))).
Proof.
  cbv zeta. split.
  - intros p Hp.
    apply (RunTrace_parent_found_started sdk action attributes w p Hp).
  - destruct (resolvedParent w) as [p|] eqn:Hp.
    + intros Hne. exfalso. apply Hne.
      apply (RunTrace_parent_found_started sdk action attributes w p Hp).
    + rewrite (RunTrace_no_parent sdk action attributes w Hp).
      assert (Hslot : _activeSpan w = None)
        by (unfold resolvedParent in Hp; destruct (_activeSpan w);
            [discriminate|reflexivity]).
      destruct (startSpan_raises sdk (started w) action _ None).
      * intros Hne. exfalso. apply Hne. reflexivity.
      * cbv zeta.
        destruct (startSpan_raises sdk (started (set_activeSpan _ _)) action _ _);
          destruct w; cbn in *; intros _; repeat split; assumption.
Qed.

(** Both halves on concrete states: with handle 0 in the slot the slot is
    untouched; with only an ambient span the slot stays empty; with
    neither, the slot goes from empty to the new root. *)
Lemma C8_witness :
  let held := RunTrace lenientSdk "load" None activeWorld in
  let ambientOnly :=
    RunTrace lenientSdk "load" None (newInstance (mkContext (Some 4) [])) in
  let none := RunTrace lenientSdk "load" None (newInstance emptyContext) in
  _activeSpan held.2 = Some 0 /\
  _activeSpan ambientOnly.2 = None /\
  _activeSpan none.2 = Some 0.
Proof.
  cbv zeta. split; [|split].
  - exact (proj1 (C8_RunTrace_frames_slot lenientSdk "load" None activeWorld)
                 0 eq_refl).
  - exact (proj1 (C8_RunTrace_frames_slot lenientSdk "load" None
                    (newInstance (mkContext (Some 4) []))) 4 eq_refl).
  - apply (C8_RunTrace_frames_slot lenientSdk "load" None
             (newInstance emptyContext)).
    discriminate.
Defined.

(** C9, counterexample.  With a tracer whose [startSpan] raises,
    [RunTrace] on a fresh instance returns no span handle: the call
    raises. *)
Lemma C9_counterexample :
  (RunTrace brokenSdk "load" None (newInstance emptyContext)).1
    = Raised (SdkError "tracer unavailable") /\
  ~ (exists h, (RunTrace brokenSdk "load" None (newInstance emptyContext)).1
               = Returned (Some h)).
Proof. split; [reflexivity|]. intros [h Hh]. discriminate Hh. Qed.

(** C9, amended.  [RunTrace] never returns [undefined]: in no state and
    for no input is its outcome the empty return value, and the warning
    of the fallback branch is never written (the log is left as it was).
    It returns a span handle exactly when none of the [startSpan] calls
    it makes raises; when one raises, the call raises that exception
    instead of returning. *)
Theorem C9_RunTrace_never_returns_empty
    (sdk : Sdk) (action : string) (attributes : option Attributes)
    (w : World) :
  let r := RunTrace sdk action attributes w in
  r.1 <> Returned None /\
  diagLog r.2 = diagLog w /\
  ((exists h, r.1 = Returned (Some h)) <->
   RunTrace_failure sdk action attributes w = None) /\
  (forall e, r.1 = Raised e <->
             RunTrace_failure sdk action attributes w = Some e).
Proof.
  cbv zeta.
  destruct (RunTrace_result sdk action attributes w) as (Hlog & _ & Hr).
  rewrite Hr.
  destruct (RunTrace_failure sdk action attributes w) as [e|].
  - split; [discriminate|]. split; [exact Hlog|]. split.
    + split; [intros [h Hh]; discriminate Hh|discriminate].
    + intros e'. split; congruence.
  - split; [discriminate|]. split; [exact Hlog|]. split.
    + split; [reflexivity|]. intros _. eexists. reflexivity.
    + intros e'. split; discriminate.
Qed.

(** With a parent in the slot and without any parent, the call returns a
    handle when the tracer raises nothing. *)
Lemma C9_witness :
  (exists h, (RunTrace lenientSdk "load" None activeWorld).1
             = Returned (Some h)) /\
  (exists h, (RunTrace lenientSdk "load" None (newInstance emptyContext)).1
             = Returned (Some h)).
Proof.
  split.
  - apply (C9_RunTrace_never_returns_empty lenientSdk "load" None activeWorld).
    reflexivity.
  - apply (C9_RunTrace_never_returns_empty lenientSdk "load" None
             (newInstance emptyContext)).
    reflexivity.
Defined.

(* --------------------------------------------------------------------- *)
(** *** Attributes *)
(* --------------------------------------------------------------------- *)

(** An options object made by spreading the caller's map holds primitives
    only, so it has no attribute object. *)
Lemma optionsAttributes_spread attributes :
  optionsAttributes (spreadOptions attributes) = ∅.
Proof.
  unfold optionsAttributes, spreadOptions. rewrite lookup_fmap.
  destruct (spread attributes !! "attributes"); reflexivity.
Qed.

Lemma spreadOptions_lookup attributes k :
  spreadOptions attributes !! k = JPrim <$> (spread attributes !! k).
Proof. unfold spreadOptions. apply lookup_fmap. Qed.

Lemma optionsAttributes_nested a : optionsAttributes (nestedOptions a) = a.
Proof.
  unfold optionsAttributes, nestedOptions.
  rewrite lookup_singleton_eq. reflexivity.
Qed.

(** The caller's keys win over the three page keys. *)
Lemma pageAttributes_caller pageName attributes k v :
  spread attributes !! k = Some v ->
  pageAttributes pageName attributes !! k = Some v.
Proof. intros H. unfold pageAttributes. apply lookup_union_Some_l, H. Qed.

(** The spans a [RunTrace] call starts, whatever path it takes, were all
    asked for with the spread map as options. *)
Lemma RunTrace_started_options (sdk : Sdk) action attributes w :
  exists news,
    started (RunTrace sdk action attributes w).2 = (started w ++ news)%list /\
    Forall (fun rec => span_options rec = spreadOptions attributes) news /\
    ((forall sp c,
         startSpan_raises sdk sp action (spreadOptions attributes) c = None) ->
     news <> []).
Proof.
  destruct (resolvedParent w) as [p|] eqn:Hp.
  - rewrite (RunTrace_parent_found sdk action attributes w p Hp).
    destruct (startSpan_raises sdk (started w) action _ _) eqn:Hs.
    + exists []. rewrite app_nil_r. repeat split; [constructor|].
      intros Hsdk. rewrite Hsdk in Hs. discriminate.
    + destruct w; cbn. eexists. split; [reflexivity|].
      split; [repeat constructor|discriminate].
  - rewrite (RunTrace_no_parent sdk action attributes w Hp).
    destruct (startSpan_raises sdk (started w) action _ None) eqn:Hs.
    + exists []. rewrite app_nil_r. repeat split; [constructor|].
      intros Hsdk. rewrite Hsdk in Hs. discriminate.
    + cbv zeta.
      destruct (startSpan_raises sdk (started (set_activeSpan _ _)) action _ _);
        destruct w; cbn; [|rewrite <- app_assoc]; eexists;
        (split; [reflexivity|]); (split; [repeat constructor|discriminate]).
Qed.

(** C10.  [RunTrace] hands the caller's map to [tracer.startSpan] as the
    options object itself: each caller key is a top-level key of the
    options of every span it starts, there is no attribute object under
    ["attributes"], and so those spans carry none of the caller's
    attributes.  [startPageSpan] nests instead: the options of the span
    it starts hold, under ["attributes"], an object with every caller
    key. *)
Theorem C10_RunTrace_spreads_attributes_as_options
    (sdk : Sdk) (name : string) (attributes : option Attributes)
    (w : World) :
  (exists news,
      started (RunTrace sdk name attributes w).2
        = (started w ++ news)%list /\
      ((forall sp c,
           startSpan_raises sdk sp name (spreadOptions attributes) c = None) ->
       news <> []) /\
      Forall (fun rec =>
                span_options rec = spreadOptions attributes /\
                span_attributes rec = ∅ /\
                forall k v, spread attributes !! k = Some v ->
                            span_options rec !! k = Some (JPrim v) /\
                            span_attributes rec !! k = None) news) /\
  (exists news,
      started (startPageSpan sdk name attributes w).2
        = (started w ++ news)%list /\
      ((forall sp o c, startSpan_raises sdk sp ("page." ++ name) o c = None) ->
       news <> []) /\
      Forall (fun rec =>
                span_options rec
                  = nestedOptions (pageAttributes name attributes) /\
                forall k v, spread attributes !! k = Some v ->
                            span_attributes rec !! k = Some v) news).
Proof.
  split.
  - destruct (RunTrace_started_options sdk name attributes w)
      as (news & Hst & Hall & Hne).
    exists news. split; [exact Hst|]. split; [exact Hne|].
    eapply Forall_impl; [exact Hall|]. intros rec Hrec.
    unfold span_attributes. rewrite Hrec, optionsAttributes_spread.
    split; [reflexivity|]. split; [reflexivity|].
    intros k v Hk. rewrite spreadOptions_lookup, Hk.
    split; [reflexivity|apply lookup_empty].
  - rewrite startPageSpan_eq.
    destruct (startSpan_raises sdk (started w) _ _ None) eqn:Hs.
    + exists []. rewrite app_nil_r. repeat split; [|constructor].
      intros Hsdk. rewrite Hsdk in Hs. discriminate.
    + destruct w; cbn. eexists. split; [reflexivity|].
      split; [discriminate|]. repeat constructor.
      intros k v Hk. unfold span_attributes, pageRecord. cbn.
      rewrite optionsAttributes_nested. apply pageAttributes_caller, Hk.
Qed.

(** With the caller map [{"route.path": "/dashboard"}]: the span started
    by [RunTrace] has ["route.path"] as an option key and no attribute;
    the span started by [startPageSpan] carries it as an attribute. *)
Lemma C10_witness :
  (exists news,
      started (RunTrace lenientSdk "load" routeAttributes
                        (newInstance emptyContext)).2 = news /\
      news <> [] /\
      Forall (fun rec =>
                span_options rec !! "route.path"
                  = Some (JPrim (PStr "/dashboard")) /\
                span_attributes rec !! "route.path" = None) news) /\
  (exists news,
      started (startPageSpan lenientSdk "dashboard" routeAttributes
                             (newInstance emptyContext)).2 = news /\
      news <> [] /\
      Forall (fun rec =>
                span_attributes rec !! "route.path"
                  = Some (PStr "/dashboard")) news).
Proof.
  destruct (C10_RunTrace_spreads_attributes_as_options lenientSdk "load"
              routeAttributes (newInstance emptyContext))
    as ((n1 & Hst1 & Hne1 & Hall1) & _).
  destruct (C10_RunTrace_spreads_attributes_as_options lenientSdk "dashboard"
              routeAttributes (newInstance emptyContext))
    as (_ & (n2 & Hst2 & Hne2 & Hall2)).
  split.
  - exists n1. split; [exact Hst1|]. split; [exact (Hne1 (fun _ _ => eq_refl))|].
    eapply Forall_impl; [exact Hall1|]. intros rec (_ & _ & Hk).
    apply (Hk "route.path" (PStr "/dashboard")). reflexivity.
  - exists n2. split; [exact Hst2|].
    split; [exact (Hne2 (fun _ _ _ => eq_refl))|].
    eapply Forall_impl; [exact Hall2|]. intros rec (_ & Hk).
    apply (Hk "route.path" (PStr "/dashboard")). reflexivity.
Defined.

(* --------------------------------------------------------------------- *)
(** *** Invariants of the slot *)
(* --------------------------------------------------------------------- *)

Lemma step_slotLive (sdk : Sdk) (op : Op) (w : World) :
  slotLive w -> slotLive (step sdk op w).
Proof.
  intros [Hends Hslot]. destruct op as [pn at_|ac at_| | | | | | | | |c]; cbn [step].
  - (* startPageSpan *)
    rewrite startPageSpan_eq.
    destruct (startSpan_raises sdk (started w) _ _ None);
      [split; assumption|].
    destruct w as [slot http sp ends lg amb]; unfold slotLive; cbn in *.
    live_solve; live_finish Hends Hslot.
  - (* RunTrace *)
    destruct (resolvedParent w) as [p|] eqn:Hp.
    + rewrite (RunTrace_parent_found sdk ac at_ w p Hp).
      destruct (startSpan_raises sdk (started w) ac _ _);
        [split; assumption|].
      destruct w as [slot http sp ends lg amb]; unfold slotLive; cbn in *.
      live_solve; live_finish Hends Hslot.
    + rewrite (RunTrace_no_parent sdk ac at_ w Hp).
      destruct (startSpan_raises sdk (started w) ac _ None);
        [split; assumption|].
      cbv zeta.
      destruct (startSpan_raises sdk (started (set_activeSpan _ _)) ac _ _);
        destruct w as [slot http sp ends lg amb]; unfold slotLive; cbn in *;
        live_solve; live_finish Hends Hslot.
  - (* resetSpan *)
    rewrite resetSpan_eq.
    destruct w as [slot http sp ends lg amb]; unfold slotLive; cbn in *.
    destruct slot as [s|]; [destruct (end_raises sdk ends s)|]; cbn;
      live_solve; live_finish Hends Hslot;
      destruct (Hslot _ eq_refl); assumption.
  - exact (conj Hends Hslot).
  - exact (conj Hends Hslot).
  - exact (conj Hends Hslot).
  - exact (conj Hends Hslot).
  - exact (conj Hends Hslot).
  - exact (conj Hends Hslot).
  - exact (conj Hends Hslot).
  - exact (conj Hends Hslot).
Qed.

Lemma run_app (sdk : Sdk) ops1 ops2 w :
  run sdk (ops1 ++ ops2) w = run sdk ops2 (run sdk ops1 w).
Proof. unfold run. apply fold_left_app. Qed.

Lemma run_slotLive (sdk : Sdk) (ops : list Op) (w : World) :
  slotLive w -> slotLive (run sdk ops w).
Proof.
  revert w. induction ops as [|op ops IH]; intros w Hw; [exact Hw|].
  cbn. apply IH, step_slotLive, Hw.
Qed.

Lemma newInstance_slotLive c : slotLive (newInstance c).
Proof.
  split; cbn.
  - intros s Hs. inversion Hs.
  - intros s Hs. discriminate.
Qed.

(** C6.  In every state an instance reaches from construction through
    its public operations (and changes of the ambient context), the slot
    holds at most one handle, and no [end()] call has named the handle it
    holds.  After any such sequence that ends with [resetSpan] the slot is
    empty, so it refers to no ended span. *)
Theorem C6_slot_invariant (sdk : Sdk) (c : Context) (ops : list Op) :
  let w := run sdk ops (newInstance c) in
  let w' := run sdk (ops ++ [OpResetSpan]) (newInstance c) in
  length (slotHandles w) <= 1 /\
  (forall s, _activeSpan w = Some s -> s ∉ endCalls w) /\
  _activeSpan w' = None /\
  slotHandles w' = [] /\
  (forall s, s ∈ endCalls w' -> _activeSpan w' <> Some s).
Proof.
  cbv zeta. rewrite run_app.
  set (w := run sdk ops (newInstance c)).
  change (run sdk [OpResetSpan] w) with (resetSpan sdk w).2.
  assert (Hlive : slotLive w) by apply run_slotLive, newInstance_slotLive.
  assert (Hreset : _activeSpan (resetSpan sdk w).2 = None)
    by apply resetSpan_clears_slot.
  split; [unfold slotHandles; destruct (_activeSpan w); cbn; lia|].
  split; [intros s Hs; apply (proj2 Hlive s Hs)|].
  split; [exact Hreset|].
  split; [unfold slotHandles; rewrite Hreset; reflexivity|].
  intros s _. rewrite Hreset. discriminate.
Qed.

(** A run that passes through both kinds of state: the slot is filled by
    the synthesized root, survives a failed [startPageSpan] and a second
    [RunTrace], and is empty after the closing [resetSpan]. *)
Lemma C6_witness :
  let ops := [OpRunTrace "page" None; OpStartPageSpan "home" None;
              OpRunTrace "load" routeAttributes] in
  let w := run strictSdk ops (newInstance emptyContext) in
  let w' := run strictSdk (ops ++ [OpResetSpan]) (newInstance emptyContext) in
  _activeSpan w = Some 0 /\
  length (slotHandles w) <= 1 /\
  (0 ∉ endCalls w) /\
  _activeSpan w' = None /\
  endCalls w' = [0].
Proof.
  cbv zeta.
  destruct (C6_slot_invariant strictSdk emptyContext
              [OpRunTrace "page" None; OpStartPageSpan "home" None;
               OpRunTrace "load" routeAttributes])
    as (Hlen & Hlive & Hempty & _ & _).
  split; [reflexivity|]. split; [exact Hlen|].
  split; [exact (Hlive 0 eq_refl)|]. split; [exact Hempty|reflexivity].
Defined.

(* --------------------------------------------------------------------- *)
(** *** What a run of calls does to the tracer *)
(* --------------------------------------------------------------------- *)

(** Splits a goal about [RunTrace] along the paths of the call: a parent
    was found or not, and each [startSpan] call raised or not. *)
Ltac RunTrace_paths sdk action attributes w :=
  let Hp := fresh "Hp" in
  destruct (resolvedParent w) as [?p|] eqn:Hp;
  [ rewrite (RunTrace_parent_found sdk action attributes w _ Hp);
    destruct (startSpan_raises sdk (started w) action _ _) eqn:?
  | rewrite (RunTrace_no_parent sdk action attributes w Hp);
    destruct (startSpan_raises sdk (started w) action _ None) eqn:?;
    [ | cbv zeta;
        destruct (startSpan_raises sdk (started (set_activeSpan _ _))
                                   action _ _) eqn:? ] ].

(** The fields [resetSpan] leaves behind. *)
Lemma resetSpan_fields (sdk : Sdk) (w : World) :
  _activeSpan (resetSpan sdk w).2 = None /\
  endCalls (resetSpan sdk w).2 = (endCalls w ++ slotHandles w)%list /\
  started (resetSpan sdk w).2 = started w /\
  _httpInterceptorEnabled (resetSpan sdk w).2 = _httpInterceptorEnabled w.
Proof.
  rewrite resetSpan_eq. unfold slotHandles.
  destruct w as [slot http sp ends lg amb]; cbn.
  destruct slot as [s|]; [destruct (end_raises sdk ends s)|]; cbn;
    rewrite ?app_nil_r; repeat split; reflexivity.
Qed.

(** No call removes or rewrites a span the tracer has started. *)
Lemma step_started (sdk : Sdk) (op : Op) (w : World) :
  exists news, started (step sdk op w) = (started w ++ news)%list.
Proof.
  destruct op as [pn at_|ac at_| | | | | | | | |c]; cbn [step];
    try (exists []; rewrite app_nil_r; reflexivity).
  - rewrite startPageSpan_eq.
    destruct (startSpan_raises sdk (started w) _ _ None);
      [exists []; rewrite app_nil_r; reflexivity|].
    destruct w; cbn. eexists; reflexivity.
  - RunTrace_paths sdk ac at_ w; destruct w; cbn;
      try (exists []; rewrite app_nil_r; reflexivity);
      try (eexists; reflexivity).
    rewrite <- app_assoc. eexists; reflexivity.
  - rewrite resetSpan_eq. destruct w as [slot http sp ends lg amb]; cbn.
    destruct slot as [s|]; [destruct (end_raises sdk ends s)|]; cbn;
      exists []; rewrite app_nil_r; reflexivity.
Qed.

Lemma run_started (sdk : Sdk) (ops : list Op) (w : World) :
  exists news, started (run sdk ops w) = (started w ++ news)%list.
Proof.
  revert w. induction ops as [|op ops IH]; intros w.
  - exists []. rewrite app_nil_r. reflexivity.
  - cbn. destruct (IH (step sdk op w)) as [n2 H2].
    destruct (step_started sdk op w) as [n1 H1].
    exists (n1 ++ n2)%list. unfold run in H2. rewrite H2, H1.
    rewrite app_assoc. reflexivity.
Qed.

Lemma step_rootsOnly (sdk : Sdk) (op : Op) (w : World) :
  rootsOnly w -> rootsOnly (step sdk op w).
Proof.
  intros Hw. destruct op as [pn at_|ac at_| | | | | | | | |c]; cbn [step];
    try exact Hw.
  - rewrite startPageSpan_eq.
    destruct (startSpan_raises sdk (started w) _ _ None); [exact Hw|].
    destruct w as [slot http sp ends lg amb]. intros s Hs.
    destruct (Hw s Hs) as (a & at' & Hl). exists a, at'. cbn in *.
    apply lookup_app_l_Some, Hl.
  - RunTrace_paths sdk ac at_ w; try exact Hw;
      destruct w as [slot http sp ends lg amb]; intros s Hs; cbn in *.
    + destruct (Hw s Hs) as (a & at' & Hl). exists a, at'.
      apply lookup_app_l_Some, Hl.
    + destruct Hs as [Hs|Hs].
      * destruct (Hw s (or_introl Hs)) as (a & at' & Hl). exists a, at'.
        apply lookup_app_l_Some, Hl.
      * injection Hs as <-. exists ac, at_.
        apply list_lookup_middle. reflexivity.
    + destruct Hs as [Hs|Hs].
      * destruct (Hw s (or_introl Hs)) as (a & at' & Hl). exists a, at'.
        apply lookup_app_l_Some, lookup_app_l_Some, Hl.
      * injection Hs as <-. exists ac, at_.
        apply lookup_app_l_Some, list_lookup_middle. reflexivity.
  - destruct (resetSpan_fields sdk w) as (Hslot & Hends & Hst & _).
    intros s Hs. rewrite Hst. apply Hw.
    rewrite Hslot, Hends in Hs. destruct Hs as [Hs|Hs]; [|discriminate].
    apply elem_of_app in Hs. destruct Hs as [Hs|Hs]; [left; exact Hs|].
    right. unfold slotHandles in Hs. destruct (_activeSpan w); cbn in Hs.
    + apply list_elem_of_singleton in Hs. congruence.
    + inversion Hs.
Qed.

Lemma run_rootsOnly (sdk : Sdk) (ops : list Op) (w : World) :
  rootsOnly w -> rootsOnly (run sdk ops w).
Proof.
  revert w. induction ops as [|op ops IH]; intros w Hw; [exact Hw|].
  cbn. apply IH, step_rootsOnly, Hw.
Qed.

Lemma newInstance_rootsOnly c : rootsOnly (newInstance c).
Proof.
  intros s [Hs|Hs]; cbn in Hs; [inversion Hs|discriminate].
Qed.

(** A span [RunTrace] returns is one it asked for under a parent. *)
Lemma RunTrace_returns_child (sdk : Sdk) action attributes w h :
  (RunTrace sdk action attributes w).1 = Returned (Some h) ->
  exists p,
    started (RunTrace sdk action attributes w).2 !! h
      = Some (childRecord action attributes (ambient w) p).
Proof.
  RunTrace_paths sdk action attributes w; destruct w; cbn;
    intros Hr; try discriminate Hr; injection Hr as <-; eexists;
    apply list_lookup_middle; reflexivity.
Qed.

Lemma childRecord_not_root action attributes c p action' attributes' :
  childRecord action attributes c p <> rootRecord action' attributes'.
Proof. unfold childRecord, rootRecord. intros H. discriminate H. Qed.

Lemma pageRecord_not_root pageName attributes action' attributes' :
  pageRecord pageName attributes <> rootRecord action' attributes'.
Proof.
  unfold pageRecord, rootRecord. intros H.
  assert (Ho : nestedOptions (pageAttributes pageName attributes)
               = spreadOptions attributes') by congruence.
  apply (f_equal optionsAttributes) in Ho.
  rewrite optionsAttributes_nested, optionsAttributes_spread in Ho.
  assert (Hk : pageAttributes pageName attributes !! "page.type" = None)
    by (rewrite Ho; apply lookup_empty).
  unfold pageAttributes in Hk. apply lookup_union_None in Hk.
  destruct Hk as [_ Hk]. discriminate Hk.
Qed.

(** A started span that is not a synthesized root is, after any further
    calls, neither in the slot nor among the ended spans. *)
Lemma non_root_stays_open (sdk : Sdk) (ops : list Op) (w : World) h rec :
  rootsOnly w ->
  started w !! h = Some rec ->
  (forall action attributes, rec <> rootRecord action attributes) ->
  (h ∉ endCalls (run sdk ops w)) /\ _activeSpan (run sdk ops w) <> Some h.
Proof.
  intros Hw Hh Hrec.
  pose proof (run_rootsOnly sdk ops w Hw) as Hroots.
  destruct (run_started sdk ops w) as [news Hst].
  assert (Hh' : started (run sdk ops w) !! h = Some rec)
    by (rewrite Hst; apply lookup_app_l_Some, Hh).
  split; intros Hbad.
  - destruct (Hroots h (or_introl Hbad)) as (a & at' & Hl).
    rewrite Hh' in Hl. injection Hl as Hl. exact (Hrec a at' Hl).
  - destruct (Hroots h (or_intror Hbad)) as (a & at' & Hl).
    rewrite Hh' in Hl. injection Hl as Hl. exact (Hrec a at' Hl).
Qed.

(** X1.  Whatever public methods are called on an instance, in whatever
    order, every span the class has called [end()] on is a root that
    [RunTrace] synthesized (started without a parent context, with the
    caller's map spread as options), and so is the span in the slot. *)
Theorem X1_only_synthesized_roots_are_ended
    (sdk : Sdk) (c : Context) (ops : list Op) :
  let w := run sdk ops (newInstance c) in
  Forall (fun s => exists action attributes,
              started w !! s = Some (rootRecord action attributes))
         (endCalls w ++ slotHandles w).
Proof.
  cbv zeta. apply Forall_forall. intros s Hs.
  apply (run_rootsOnly sdk ops _ (newInstance_rootsOnly c)).
  apply elem_of_app in Hs. destruct Hs as [Hs|Hs]; [left; exact Hs|].
  right. unfold slotHandles in Hs.
  destruct (_activeSpan (run sdk ops (newInstance c))); cbn in Hs.
  - apply list_elem_of_singleton in Hs. congruence.
  - inversion Hs.
Qed.

(** After two [RunTrace] calls, a [startPageSpan] and a [resetSpan], the
    one span ended is handle 0, the root of the first [RunTrace]. *)
Lemma X1_witness :
  let w := run lenientSdk
               [OpRunTrace "page" None; OpRunTrace "load" None;
                OpStartPageSpan "home" None; OpResetSpan]
               (newInstance emptyContext) in
  endCalls w = [0] /\
  length (started w) = 4 /\
  Forall (fun s => exists action attributes,
              started w !! s = Some (rootRecord action attributes))
         (endCalls w ++ slotHandles w).
Proof.
  cbv zeta. split; [reflexivity|]. split; [reflexivity|].
  exact (X1_only_synthesized_roots_are_ended lenientSdk emptyContext
           [OpRunTrace "page" None; OpRunTrace "load" None;
            OpStartPageSpan "home" None; OpResetSpan]).
Defined.

(** X2.  The span [RunTrace] returns is never ended by the class and
    never enters the slot, whatever public methods are called afterwards:
    ending it is left to the caller. *)
Theorem X2_RunTrace_result_never_ended
    (sdk : Sdk) (c : Context) (before after : list Op)
    (action : string) (attributes : option Attributes) (h : Span)
    (Hret : (RunTrace sdk action attributes
               (run sdk before (newInstance c))).1 = Returned (Some h)) :
  let w := (RunTrace sdk action attributes
              (run sdk before (newInstance c))).2 in
  (h ∉ endCalls (run sdk after w)) /\ _activeSpan (run sdk after w) <> Some h.
Proof.
  cbv zeta.
  destruct (RunTrace_returns_child sdk action attributes _ h Hret)
    as [p Hchild].
  eapply non_root_stays_open; [|exact Hchild|].
  - apply (step_rootsOnly sdk (OpRunTrace action attributes)).
    apply run_rootsOnly, newInstance_rootsOnly.
  - intros a at'. apply childRecord_not_root.
Qed.

(** The child returned on a fresh instance (handle 1) is still open after
    a reset, a new [RunTrace] and another reset. *)
Lemma X2_witness :
  (RunTrace lenientSdk "checkout" None (newInstance emptyContext)).1
    = Returned (Some 1) /\
  let w := (RunTrace lenientSdk "checkout" None (newInstance emptyContext)).2 in
  let w' := run lenientSdk [OpResetSpan; OpRunTrace "load" None; OpResetSpan]
                w in
  endCalls w' = [0; 2] /\ (1 ∉ endCalls w') /\ _activeSpan w' <> Some 1.
Proof.
  split; [reflexivity|]. cbv zeta. split; [reflexivity|].
  exact (X2_RunTrace_result_never_ended lenientSdk emptyContext []
           [OpResetSpan; OpRunTrace "load" None; OpResetSpan]
           "checkout" None 1 eq_refl).
Defined.

(** X3.  A page span that [startPageSpan] got started is never put in the
    slot and never ended by the class, whatever public methods are called
    afterwards. *)
Theorem X3_page_span_stays_open
    (sdk : Sdk) (c : Context) (before after : list Op)
    (pageName : string) (attributes : option Attributes)
    (Hstart :
       startSpan_raises sdk (started (run sdk before (newInstance c)))
         ("page." ++ pageName)
         (nestedOptions (pageAttributes pageName attributes)) None = None) :
  let w0 := run sdk before (newInstance c) in
  let w := (startPageSpan sdk pageName attributes w0).2 in
  let h := length (started w0) in
  started w !! h = Some (pageRecord pageName attributes) /\
  (h ∉ endCalls (run sdk after w)) /\ _activeSpan (run sdk after w) <> Some h.
Proof.
  cbv zeta.
  assert (Hpage :
            started (startPageSpan sdk pageName attributes
                       (run sdk before (newInstance c))).2
              !! length (started (run sdk before (newInstance c)))
            = Some (pageRecord pageName attributes)).
  { rewrite startPageSpan_eq, Hstart.
    destruct (run sdk before (newInstance c)); cbn.
    apply list_lookup_middle. reflexivity. }
  split; [exact Hpage|].
  eapply non_root_stays_open; [|exact Hpage|].
  - apply (step_rootsOnly sdk (OpStartPageSpan pageName attributes)).
    apply run_rootsOnly, newInstance_rootsOnly.
  - intros a at'. apply pageRecord_not_root.
Qed.

(** The page span started on a fresh instance (handle 0) is untouched by
    a reset, a [RunTrace] and a second reset, which end handle 1. *)
Lemma X3_witness :
  let w := (startPageSpan lenientSdk "home" None
              (newInstance emptyContext)).2 in
  let w' := run lenientSdk [OpResetSpan; OpRunTrace "load" None; OpResetSpan]
                w in
  span_name <$> started w = ["page.home"] /\
  endCalls w' = [1] /\ (0 ∉ endCalls w') /\ _activeSpan w' <> Some 0.
Proof.
  cbv zeta. split; [reflexivity|]. split; [reflexivity|].
  exact (proj2 (X3_page_span_stays_open lenientSdk emptyContext []
                  [OpResetSpan; OpRunTrace "load" None; OpResetSpan]
                  "home" None eq_refl)).
Defined.

(** X4.  [RunTrace] is not all-or-nothing.  When no parent is found, the
    root gets started and the [startSpan] call for the requested span then
    raises, the exception reaches the caller, yet the root stays started
    and installed in the slot, and was not ended. *)
Theorem X4_RunTrace_failure_keeps_root
    (sdk : Sdk) (action : string) (attributes : option Attributes)
    (w : World) (e : Exn)
    (Hparent : resolvedParent w = None)
    (Hroot :
       startSpan_raises sdk (started w) action (spreadOptions attributes)
                        None = None)
    (Hchild :
       startSpan_raises sdk
         (started w ++ [rootRecord action attributes])
         action (spreadOptions attributes)
         (Some (setSpan (ambient w) (length (started w)))) = Some e) :
  let r := RunTrace sdk action attributes w in
  r.1 = Raised e /\
  _activeSpan r.2 = Some (length (started w)) /\
  started r.2 = (started w ++ [rootRecord action attributes])%list /\
  endCalls r.2 = endCalls w.
Proof.
  cbv zeta. rewrite (RunTrace_no_parent sdk action attributes w Hparent).
  rewrite Hroot. cbv zeta.
  destruct w as [slot http sp ends lg amb]; cbn in *.
  rewrite Hchild. repeat split; reflexivity.
Qed.

(** With a tracer that raises on its second [startSpan] call, a fresh
    instance is left holding root 0 by a [RunTrace] call that raised. *)
Lemma X4_witness :
  let r := RunTrace secondCallFails "checkout" None
                    (newInstance emptyContext) in
  r.1 = Raised (SdkError "span limit reached") /\
  _activeSpan r.2 = Some 0 /\
  span_name <$> started r.2 = ["checkout"].
Proof.
  cbv zeta.
  destruct (X4_RunTrace_failure_keeps_root secondCallFails "checkout" None
              (newInstance emptyContext) (SdkError "span limit reached")
              eq_refl eq_refl eq_refl)
    as (Hr & Hslot & Hst & _).
  split; [exact Hr|]. split; [exact Hslot|]. rewrite Hst. reflexivity.
Defined.

(** X5.  Two [RunTrace] calls on an idle instance with no ambient span,
    with a tracer that raises nothing: the first synthesizes a root and
    starts a second span, the second call starts a single span, and both
    of these are started under a context that carries that same root,
    whatever the ambient context has become in between.  Each is the
    root's child unless its own map has a truthy [root] key, which makes
    it parentless.  The root stays in the slot; three spans are started
    in all, none ended. *)
Theorem X5_consecutive_RunTrace_share_root
    (sdk : Sdk) (w : World) (c : Context)
    (action1 action2 : string) (attributes1 attributes2 : option Attributes)
    (Hidle : resolvedParent w = None)
    (Hsdk : forall sp n o ctx, startSpan_raises sdk sp n o ctx = None) :
  let root := length (started w) in
  let r1 := RunTrace sdk action1 attributes1 w in
  let r2 := RunTrace sdk action2 attributes2 (set_ambient c r1.2) in
  let first := childRecord action1 attributes1 (ambient w) root in
  let second := childRecord action2 attributes2 c root in
  r1.1 = Returned (Some (S root)) /\
  r2.1 = Returned (Some (S (S root))) /\
  started r2.2 =
    (started w ++ [rootRecord action1 attributes1; first; second])%list /\
  span_parent (ambient w) (rootRecord action1 attributes1) = None /\
  span_parent (ambient w) first =
    (if options_root (spreadOptions attributes1) then None else Some root) /\
  span_parent c second =
    (if options_root (spreadOptions attributes2) then None else Some root) /\
  _activeSpan r2.2 = Some root /\
  endCalls r2.2 = endCalls w.
Proof.
  cbv zeta. rewrite (RunTrace_no_parent sdk action1 attributes1 w Hidle).
  rewrite Hsdk. cbv zeta. rewrite Hsdk.
  rewrite (RunTrace_parent_found sdk action2 attributes2 _
             (length (started w))) by (destruct w; reflexivity).
  rewrite Hsdk.
  assert (Hamb : getSpan (ambient w) = None).
  { unfold resolvedParent in Hidle.
    destruct (_activeSpan w); [discriminate|exact Hidle]. }
  destruct w as [slot http sp ends lg amb]; cbn in *.
  rewrite !length_app, <- !app_assoc. cbn.
  split; [f_equal; f_equal; lia|]. split; [f_equal; f_equal; lia|].
  split; [reflexivity|]. split.
  { unfold span_parent. cbn.
    destruct (options_root (spreadOptions attributes1));
      [reflexivity|exact Hamb]. }
  repeat split; reflexivity.
Qed.

(** Without a [root] key the three spans form one trace; with
    [{ root: true }] in the second call, the third span starts a trace of
    its own although its context carries the root. *)
Lemma X5_witness :
  let ctx := mkContext (Some 1) [] in
  let r1 := RunTrace lenientSdk "checkout" None (newInstance emptyContext) in
  let r2 := RunTrace lenientSdk "pay" routeAttributes (set_ambient ctx r1.2) in
  let r2' := RunTrace lenientSdk "pay" rootAttributes (set_ambient ctx r1.2) in
  r2.1 = Returned (Some 2) /\
  _activeSpan r2.2 = Some 0 /\
  span_parent ctx (childRecord "pay" routeAttributes ctx 0) = Some 0 /\
  span_parent ctx (childRecord "pay" rootAttributes ctx 0) = None /\
  started r2'.2 !! 2 = Some (childRecord "pay" rootAttributes ctx 0).
Proof.
  cbv zeta.
  destruct (X5_consecutive_RunTrace_share_root lenientSdk
              (newInstance emptyContext) (mkContext (Some 1) [])
              "checkout" "pay" None routeAttributes eq_refl
              (fun _ _ _ _ => eq_refl))
    as (_ & Hr2 & _ & _ & _ & Hpar & Hslot & _).
  destruct (X5_consecutive_RunTrace_share_root lenientSdk
              (newInstance emptyContext) (mkContext (Some 1) [])
              "checkout" "pay" None rootAttributes eq_refl
              (fun _ _ _ _ => eq_refl))
    as (_ & _ & Hst' & _ & _ & Hpar' & _ & _).
  split; [exact Hr2|]. split; [exact Hslot|]. split; [exact Hpar|].
  split; [exact Hpar'|]. rewrite Hst'. reflexivity.
Defined.

(** The interceptor flag is never set by a call. *)
Lemma step_httpInterceptor (sdk : Sdk) (op : Op) (w : World) :
  _httpInterceptorEnabled w = false ->
  _httpInterceptorEnabled (step sdk op w) = false.
Proof.
  intros Hw. destruct op as [pn at_|ac at_| | | | | | | | |c]; cbn [step];
    try exact Hw; try reflexivity.
  - rewrite startPageSpan_eq.
    destruct (startSpan_raises sdk (started w) _ _ None); [exact Hw|].
    destruct w; exact Hw.
  - RunTrace_paths sdk ac at_ w; destruct w; exact Hw.
  - destruct (resetSpan_fields sdk w) as (_ & _ & _ & Hhttp).
    rewrite Hhttp. exact Hw.
Qed.

(** X6.  The HTTP interceptor is never enabled: the flag starts false
    and the only method that writes it writes false, so after any
    sequence of public calls [isHttpInterceptorEnabled()] returns false
    (and changes nothing). *)
Theorem X6_http_interceptor_never_enabled
    (sdk : Sdk) (c : Context) (ops : list Op) :
  let w := run sdk ops (newInstance c) in
  isHttpInterceptorEnabled w = (Returned false, w).
Proof.
  cbv zeta.
  assert (H : _httpInterceptorEnabled (run sdk ops (newInstance c)) = false).
  { generalize (eq_refl : _httpInterceptorEnabled (newInstance c) = false).
    generalize (newInstance c). induction ops as [|op ops IH]; intros w Hw.
    - exact Hw.
    - cbn. apply IH, step_httpInterceptor, Hw. }
  destruct (run sdk ops (newInstance c)); cbn in *. subst. reflexivity.
Qed.

(** No call ends a span a second time, as long as the slot's span has
    not been ended. *)
Lemma step_endCalls_NoDup (sdk : Sdk) (op : Op) (w : World) :
  slotLive w -> NoDup (endCalls w) -> NoDup (endCalls (step sdk op w)).
Proof.
  intros [_ Hslot] Hw.
  destruct op as [pn at_|ac at_| | | | | | | | |c]; cbn [step];
    try exact Hw.
  - rewrite startPageSpan_eq.
    destruct (startSpan_raises sdk (started w) _ _ None); [exact Hw|].
    destruct w; exact Hw.
  - RunTrace_paths sdk ac at_ w; destruct w; exact Hw.
  - destruct (resetSpan_fields sdk w) as (_ & Hends & _).
    rewrite Hends. unfold slotHandles.
    destruct (_activeSpan w) as [s|] eqn:Hs; cbn.
    + apply NoDup_app. split; [exact Hw|]. split; [|apply NoDup_singleton].
      intros x Hx Hx'. apply list_elem_of_singleton in Hx'. subst x.
      exact (proj2 (Hslot s eq_refl) Hx).
    + rewrite app_nil_r. exact Hw.
Qed.

(** X7.  The class never calls [end()] twice on the same span: in every
    state reached from construction through public calls, the [end()]
    calls made so far name pairwise different spans. *)
Theorem X7_no_span_ended_twice (sdk : Sdk) (c : Context) (ops : list Op) :
  NoDup (endCalls (run sdk ops (newInstance c))).
Proof.
  assert (H : forall w, slotLive w -> NoDup (endCalls w) ->
                        NoDup (endCalls (run sdk ops w))).
  { induction ops as [|op ops IH]; intros w Hl Hn; [exact Hn|].
    cbn. apply IH; [apply step_slotLive, Hl|apply step_endCalls_NoDup; assumption]. }
  apply H; [apply newInstance_slotLive|constructor].
Qed.

(** Two resets with a [RunTrace] in between end two different roots. *)
Lemma X7_witness :
  let w := run strictSdk
               [OpRunTrace "page" None; OpResetSpan; OpResetSpan;
                OpRunTrace "load" None; OpResetSpan]
               (newInstance emptyContext) in
  endCalls w = [0; 2] /\ diagLog w = [] /\ NoDup (endCalls w).
Proof.
  cbv zeta. split; [reflexivity|]. split; [reflexivity|].
  exact (X7_no_span_ended_twice strictSdk emptyContext
           [OpRunTrace "page" None; OpResetSpan; OpResetSpan;
            OpRunTrace "load" None; OpResetSpan]).
Defined.

(** X8.  The span [startPageSpan] gets started carries, for every key,
    the caller's value when the caller's map has the key; otherwise
    ["page.name"] is the page name, ["page.type"] is ["navigation"],
    ["span.kind"] is ["client"], and no other key is present.  A caller
    key named like a page key therefore replaces it. *)
Theorem X8_page_span_attributes
    (sdk : Sdk) (pageName : string) (attributes : option Attributes)
    (w : World)
    (Hstart :
       startSpan_raises sdk (started w) ("page." ++ pageName)
         (nestedOptions (pageAttributes pageName attributes)) None = None) :
  exists rec,
    started (startPageSpan sdk pageName attributes w).2
      !! length (started w) = Some rec /\
    span_name rec = "page." ++ pageName /\
    forall k,
      span_attributes rec !! k =
      match spread attributes !! k with
      | Some v => Some v
      | None =>
          if decide (k = "page.name") then Some (PStr pageName)
          else if decide (k = "page.type") then Some (PStr "navigation")
          else if decide (k = "span.kind") then Some (PStr "client")
          else None
      end.
Proof.
  exists (pageRecord pageName attributes).
  split; [|split; [reflexivity|]].
  - rewrite startPageSpan_eq, Hstart. destruct w; cbn.
    apply list_lookup_middle. reflexivity.
  - intros k. unfold span_attributes, pageRecord. cbn [span_options].
    rewrite optionsAttributes_nested. unfold pageAttributes.
    rewrite lookup_union.
    destruct (spread attributes !! k) as [v|]; cbn.
    + destruct (_ !! k); reflexivity.
    + rewrite !lookup_insert, lookup_empty.
      repeat (case_decide; subst; try congruence; try reflexivity); cbn;
        repeat (case_decide; subst; try congruence; try reflexivity).
Qed.

(** A caller who passes ["page.type"] overrides the default, and keeps
    the other two page keys. *)
Lemma X8_witness :
  let attributes : option Attributes :=
    Some {[ "page.type" := PStr "modal"; "user.id" := PNum 7 ]} in
  exists rec,
    started (startPageSpan lenientSdk "home" attributes
                           (newInstance emptyContext)).2 !! 0 = Some rec /\
    span_attributes rec !! "page.type" = Some (PStr "modal") /\
    span_attributes rec !! "user.id" = Some (PNum 7) /\
    span_attributes rec !! "page.name" = Some (PStr "home") /\
    span_attributes rec !! "span.kind" = Some (PStr "client") /\
    span_attributes rec !! "route.path" = None.
Proof.
  cbv zeta.
  destruct (X8_page_span_attributes lenientSdk "home"
              (Some {[ "page.type" := PStr "modal"; "user.id" := PNum 7 ]})
              (newInstance emptyContext) eq_refl)
    as (rec & Hrec & _ & Hk).
  exists rec. split; [exact Hrec|].
  repeat split; rewrite Hk; reflexivity.
Defined.

End ReactOpenTelemetryHook.

(* ===================================================================== *)
(** ** The counter hook: bounds *)
(* ===================================================================== *)

Module UseCounterFacts.

Import UseCounter.

Section Bounds.

Context {num : Type} {N : JsNumber num}.

Implicit Types (options : @UseCounterOptions num) (count value : num).

Lemma js_gt_lt (x y : num) : js_gt x y = js_lt y x.
Proof. reflexivity. Qed.

Lemma js_lt_irrefl (Hirr : lt_irreflexive (num := num)) (x : num) :
  js_lt x x = false.
Proof.
  unfold js_lt. specialize (Hirr x).
  destruct (IsLessThan x x) as [[|]|]; congruence.
Qed.

(** The second clamp of [setValue] and the clamp of [increment]. *)
Lemma setValue_not_above_max options value count hi
    (Hirr : lt_irreflexive (num := num)) :
  max options = Some hi -> js_gt (setValue options value count) hi = false.
Proof.
  intros Hhi. unfold setValue. rewrite Hhi.
  set (clamped := match min options with Some _ => _ | None => _ end).
  destruct (js_gt clamped hi) eqn:Hgt; [|exact Hgt].
  rewrite js_gt_lt. apply js_lt_irrefl, Hirr.
Qed.

Lemma setValue_not_below_min options value count lo
    (Hirr : lt_irreflexive (num := num))
    (Hord : boundsOrdered options) :
  min options = Some lo -> js_lt (setValue options value count) lo = false.
Proof.
  intros Hlo. unfold setValue. rewrite Hlo.
  destruct (max options) as [hi|] eqn:Hhi.
  - destruct (js_lt value lo) eqn:Hlt.
    + rewrite js_gt_lt, (Hord lo hi Hlo Hhi). apply js_lt_irrefl, Hirr.
    + destruct (js_gt value hi); [exact (Hord lo hi Hlo Hhi)|exact Hlt].
  - destruct (js_lt value lo) eqn:Hlt; [apply js_lt_irrefl, Hirr|exact Hlt].
Qed.

Lemma increment_not_above_max options count hi
    (Hirr : lt_irreflexive (num := num)) :
  max options = Some hi -> js_gt (increment options count) hi = false.
Proof.
  intros Hhi. unfold increment. rewrite Hhi.
  destruct (js_gt (num_add count (step_of options)) hi) eqn:Hgt;
    [|exact Hgt].
  rewrite js_gt_lt. apply js_lt_irrefl, Hirr.
Qed.

Lemma decrement_not_below_min options count lo
    (Hirr : lt_irreflexive (num := num)) :
  min options = Some lo -> js_lt (decrement options count) lo = false.
Proof.
  intros Hlo. unfold decrement. rewrite Hlo.
  destruct (js_lt (num_sub count (step_of options)) lo) eqn:Hlt;
    [|exact Hlt].
  apply js_lt_irrefl, Hirr.
Qed.

Lemma dispatch_withinBounds options (a : Action) count
    (Hirr : lt_irreflexive (num := num))
    (Hmono : step_monotone (num := num))
    (Hord : boundsOrdered options)
    (Hstep : js_lt (step_of options) num_zero = false)
    (Hinit : withinBounds options (initialCount options)) :
  withinBounds options count -> withinBounds options (dispatch options a count).
Proof.
  intros [Hlo Hhi]. destruct a as [| | |value]; cbn [dispatch].
  - (* increment *)
    split.
    + intros lo Hmin. unfold increment.
      pose proof (proj1 (Hmono count (step_of options) lo Hstep)
                        (Hlo lo Hmin)) as Hsum.
      destruct (max options) as [hi|] eqn:Hmax; [|exact Hsum].
      destruct (js_gt (num_add count (step_of options)) hi);
        [exact (Hord lo hi Hmin Hmax)|exact Hsum].
    + intros hi. apply increment_not_above_max, Hirr.
  - (* decrement *)
    split.
    + intros lo. apply decrement_not_below_min, Hirr.
    + intros hi Hmax. unfold decrement.
      pose proof (proj2 (Hmono count (step_of options) hi Hstep)
                        (Hhi hi Hmax)) as Hdiff.
      destruct (min options) as [lo|] eqn:Hmin; [|exact Hdiff].
      destruct (js_lt (num_sub count (step_of options)) lo); [|exact Hdiff].
      rewrite js_gt_lt. exact (Hord lo hi Hmin Hmax).
  - exact Hinit.
  - split; intros b Hb.
    + apply setValue_not_below_min; assumption.
    + apply setValue_not_above_max; assumption.
Qed.

(** X9.  When the bounds do not cross, [setValue(value)] leaves a count
    that is neither below [min] nor above [max], whatever [value] and the
    previous count were. *)
Theorem X9_setValue_within_bounds options value count
    (Hirr : lt_irreflexive (num := num))
    (Hord : boundsOrdered options) :
  withinBounds options (setValue options value count).
Proof.
  split; intros b Hb.
  - apply setValue_not_below_min; assumption.
  - apply setValue_not_above_max; assumption.
Qed.

(** X10.  With bounds that do not cross, a step that is not negative and
    an initial value within the bounds, the count stays within the bounds
    after every sequence of [increment], [decrement], [reset] and
    [setValue] calls. *)
Theorem X10_counter_stays_within_bounds options (actions : list Action)
    (Hirr : lt_irreflexive (num := num))
    (Hmono : step_monotone (num := num))
    (Hord : boundsOrdered options)
    (Hstep : js_lt (step_of options) num_zero = false)
    (Hinit : withinBounds options (initialCount options)) :
  withinBounds options (counterAfter options actions).
Proof.
  unfold counterAfter.
  assert (H : forall c0, withinBounds options c0 ->
                withinBounds options
                  (fold_left (fun c a => dispatch options a c) actions c0)).
  { induction actions as [|a actions IH]; intros c0 Hc0; [exact Hc0|].
    cbn. apply IH. apply dispatch_withinBounds; assumption. }
  apply H, Hinit.
Qed.

(** X11.  One call is enough for the caps: [increment] never leaves the
    count above [max], and [decrement] never leaves it below [min],
    whatever the previous count, the step and the other bound are. *)
Theorem X11_increment_decrement_capped options count
    (Hirr : lt_irreflexive (num := num)) :
  (forall hi, max options = Some hi ->
              js_gt (increment options count) hi = false) /\
  (forall lo, min options = Some lo ->
              js_lt (decrement options count) lo = false).
Proof.
  split.
  - intros hi. apply increment_not_above_max, Hirr.
  - intros lo. apply decrement_not_below_min, Hirr.
Qed.

(** X12.  [setValue] is idempotent: setting the count to the value a
    [setValue(value)] call produced gives that same value again, for any
    bounds (crossed or not) and any previous counts. *)
Theorem X12_setValue_idempotent options value count count'
    (Hirr : lt_irreflexive (num := num)) :
  setValue options (setValue options value count) count'
  = setValue options value count.
Proof.
  unfold setValue.
  destruct (min options) as [lo|], (max options) as [hi|]; cbv zeta;
    rewrite ?js_gt_lt;
    try pose proof (js_lt_irrefl Hirr lo) as Hlo;
    try pose proof (js_lt_irrefl Hirr hi) as Hhi;
    try destruct (js_lt value lo) eqn:Hv;
    try destruct (js_lt hi lo) eqn:Hhl;
    try destruct (js_lt hi value) eqn:Hhv;
    repeat rewrite ?Hlo, ?Hhi, ?Hv, ?Hhl, ?Hhv;
    reflexivity.
Qed.

(** X13.  When the bounds cross ([max < min]), [setValue] pins the count
    to [max] for every value that is below [min] or above [max]: the
    [min] clamp runs first and the [max] clamp overrides it. *)
Theorem X13_crossed_bounds_pin_to_max options value count lo hi
    (Hmin : min options = Some lo)
    (Hmax : max options = Some hi)
    (Hcross : js_lt hi lo = true)
    (Hvalue : js_lt value lo = true \/ js_gt value hi = true) :
  setValue options value count = hi.
Proof.
  unfold setValue. rewrite Hmin, Hmax.
  destruct (js_lt value lo) eqn:Hv.
  - rewrite js_gt_lt, Hcross. reflexivity.
  - destruct Hvalue as [H|H]; [discriminate H|]. rewrite H. reflexivity.
Qed.

End Bounds.

(** *** Integer counts *)

Lemma integer_js_lt (x y : Z) : js_lt x y = (x <? y)%Z.
Proof. unfold js_lt. cbn. destruct (x <? y)%Z; reflexivity. Qed.

Lemma integer_lt_irreflexive : lt_irreflexive (num := Z).
Proof. intros x. cbn. rewrite Z.ltb_irrefl. discriminate. Qed.

Lemma integer_step_monotone : step_monotone (num := Z).
Proof.
  intros c s b. rewrite !js_gt_lt, !integer_js_lt. cbn.
  rewrite !Z.ltb_ge. lia.
Qed.

Lemma boundedOptions_ordered : boundsOrdered boundedOptions.
Proof. intros lo hi [= <-] [= <-]. reflexivity. Qed.

Lemma boundedOptions_initial :
  withinBounds boundedOptions (initialCount boundedOptions).
Proof. split; intros b [= <-]; reflexivity. Qed.

(** Values above, below and between the bounds 0 and 10. *)
Lemma X9_witness :
  setValue boundedOptions 15%Z 5%Z = 10%Z /\
  setValue boundedOptions (-5)%Z 5%Z = 0%Z /\
  setValue boundedOptions 7%Z 5%Z = 7%Z /\
  withinBounds boundedOptions (setValue boundedOptions 15%Z 5%Z).
Proof.
  repeat (split; [reflexivity|]).
  exact (X9_setValue_within_bounds boundedOptions 15%Z 5%Z
           integer_lt_irreflexive boundedOptions_ordered).
Defined.

(** The bounds test of the hook's test suite: from 5 with step 3, two
    increments give 10; [setValue(2)] then a decrement give 0. *)
Lemma X10_witness :
  counterAfter boundedOptions [Increment; Increment] = 10%Z /\
  counterAfter boundedOptions
    [Increment; Increment; SetValue 2%Z; Decrement] = 0%Z /\
  withinBounds boundedOptions
    (counterAfter boundedOptions
       [Increment; Increment; SetValue 2%Z; Decrement]).
Proof.
  split; [reflexivity|]. split; [reflexivity|].
  exact (X10_counter_stays_within_bounds boundedOptions
           [Increment; Increment; SetValue 2%Z; Decrement]
           integer_lt_irreflexive integer_step_monotone
           boundedOptions_ordered eq_refl boundedOptions_initial).
Defined.

(** Why X10 asks for a step that is not negative: with step -3 an
    increment takes the count from 1 to -2, below [min], and the hook
    reports [isAtMin]. *)
Example negative_step_leaves_bounds :
  withinBounds negativeStepOptions (initialCount negativeStepOptions) /\
  increment negativeStepOptions 1%Z = (-2)%Z /\
  js_lt (increment negativeStepOptions 1%Z) 0%Z = true /\
  isAtMin negativeStepOptions (increment negativeStepOptions 1%Z) = true.
Proof.
  split; [split; intros b [= <-]; reflexivity|]. repeat split; reflexivity.
Qed.

(** A count that starts far outside the bounds is capped by one call. *)
Lemma X11_witness :
  increment boundedOptions 50%Z = 10%Z /\
  decrement boundedOptions (-50)%Z = 0%Z /\
  js_gt (increment boundedOptions 50%Z) 10%Z = false /\
  js_lt (decrement boundedOptions (-50)%Z) 0%Z = false.
Proof.
  split; [reflexivity|]. split; [reflexivity|].
  destruct (X11_increment_decrement_capped boundedOptions 50%Z
              integer_lt_irreflexive) as [Hinc _].
  destruct (X11_increment_decrement_capped boundedOptions (-50)%Z
              integer_lt_irreflexive) as [_ Hdec].
  split; [exact (Hinc 10%Z eq_refl)|exact (Hdec 0%Z eq_refl)].
Defined.

Lemma X12_witness :
  setValue boundedOptions 15%Z 5%Z = 10%Z /\
  setValue boundedOptions (setValue boundedOptions 15%Z 5%Z) 8%Z = 10%Z /\
  setValue crossedOptions (setValue crossedOptions 5%Z 1%Z) 2%Z
    = setValue crossedOptions 5%Z 1%Z.
Proof.
  split; [reflexivity|]. split; [reflexivity|].
  exact (X12_setValue_idempotent crossedOptions 5%Z 1%Z 2%Z
           integer_lt_irreflexive).
Defined.

(** No Number value is less than itself, NaN included. *)
Lemma double_lt_irreflexive : lt_irreflexive (num := float).
Proof.
  intros x. cbn. rewrite FloatAxioms.compare_spec.
  destruct (Prim2SF x) as [s| [|] | |[|] m e]; cbn; try discriminate;
    rewrite Z.compare_refl, Pos.compare_cont_refl; discriminate.
Qed.

(** With [{ min: 10, max: 0 }] on Number values, [setValue] ends at 0 for
    5.5, 50 and -50. *)
Lemma X13_witness :
  setValue crossedDoubleOptions 5.5%float 1%float = 0%float /\
  setValue crossedDoubleOptions 50%float 1%float = 0%float /\
  setValue crossedDoubleOptions (-50)%float 1%float = 0%float.
Proof.
  split; [|split].
  - apply (X13_crossed_bounds_pin_to_max crossedDoubleOptions 5.5%float
             1%float 10%float 0%float);
      [reflexivity|reflexivity|vm_compute; reflexivity|].
    left. vm_compute. reflexivity.
  - apply (X13_crossed_bounds_pin_to_max crossedDoubleOptions 50%float
             1%float 10%float 0%float);
      [reflexivity|reflexivity|vm_compute; reflexivity|].
    right. vm_compute. reflexivity.
  - apply (X13_crossed_bounds_pin_to_max crossedDoubleOptions (-50)%float
             1%float 10%float 0%float);
      [reflexivity|reflexivity|vm_compute; reflexivity|].
    left. vm_compute. reflexivity.
Defined.

(** NaN is neither below [min] nor above [max]: [setValue(NaN)] stores
    NaN, with crossed bounds as with any bounds. *)
Example setValue_NaN_is_kept :
  setValue crossedDoubleOptions nan 1%float = nan.
Proof. vm_compute. reflexivity. Qed.

End UseCounterFacts.
